(** * BUEMS: exeat lifecycle, role-scoped queries and session revocation

    A shallow embedding of the handlers of [buems/routers] and of
    [buems/revocation.py] over an explicit record store.  Tables are lists of
    rows in insertion order, timestamps are integers on a single clock
    (seconds), and every handler that reads [datetime.now(UTC)] takes the
    current time as an argument. *)

From Stdlib Require Import ZArith List String Ascii Bool Lia Permutation Sorted.
Import ListNotations.
Open Scope string_scope.
Open Scope list_scope.
Open Scope Z_scope.

(** ** Errors and results *)

(** What a handler can raise.  [HTTPException] is what the routers raise on
    purpose; the other constructors are exceptions of the libraries or of
    [db/crud.py] that no router and no application-level handler catches. *)
Inductive Error : Type :=
| HTTPException (status_code : Z) (detail : string)
| ExeatRequestNotFound (exeat_request_id : Z)
| NoResultFound
| MultipleResultsFound
| IntegrityError
| PendingRollbackError
| TypeError.

Inductive Result (A : Type) : Type :=
| Ok (a : A)
| Raise (e : Error).
Arguments Ok {A} a.
Arguments Raise {A} e.

Definition bind {A B : Type} (m : Result A) (k : A -> Result B) : Result B :=
  match m with
  | Ok a => k a
  | Raise e => Raise e
  end.

Notation "x <- m ;; k" := (bind m (fun x => k))
  (at level 61, m at next level, right associativity).

Definition HTTP_400_BAD_REQUEST : Z := 400.
Definition HTTP_401_UNAUTHORIZED : Z := 401.
Definition HTTP_403_FORBIDDEN : Z := 403.
Definition HTTP_404_NOT_FOUND : Z := 404.

(** ** db/models.py *)

Inductive UserTypeEnum : Type := ADMIN | STUDENT | STAFF | SECURITY_OPERATIVE.

Inductive ExeatRequestStatusEnum : Type := PENDING | APPROVED | DENIED.

Definition status_value (s : ExeatRequestStatusEnum) : Z :=
  match s with PENDING => 1 | APPROVED => 2 | DENIED => 3 end.

Definition status_eqb (a b : ExeatRequestStatusEnum) : bool :=
  status_value a =? status_value b.

Module User.
Record t : Type := mk {
  id : Z;
  first_name : string;
  last_name : string;
  email : string;
  phone_number : string;
  hashed_password : string;
  is_active : bool;
  is_verified : bool;
  user_type_id : UserTypeEnum;
  profile_picture_id : option string;
  time_joined : Z
}.
End User.

Module Guardian.
Record t : Type := mk {
  id : Z;
  name : string;
  phone_number : string
}.
End Guardian.

Module Student.
Record t : Type := mk {
  id : Z;
  user_id : Z;
  matriculation_number : string;
  course_of_study : string;
  guardian_id : Z;
  guardian_relationship : string
}.
End Student.

Module Staff.
Record t : Type := mk {
  id : Z;
  user_id : Z;
  staff_id : string;
  designation : string
}.
End Staff.

Module SecurityOperative.
Record t : Type := mk {
  id : Z;
  user_id : Z;
  security_id : string;
  designation : string
}.
End SecurityOperative.

Module ExeatRequest.
Record t : Type := mk {
  id : Z;
  student_id : Z;
  leave_start : Z;
  leave_end : Z;
  submission_time : Z;
  reason : string;
  status_id : ExeatRequestStatusEnum;
  staff_id : option Z;
  staff_review_time : option Z;
  staff_comment : option string
}.
End ExeatRequest.

Module RevokedToken.
Record t : Type := mk {
  sig : string;
  exp : Z
}.
End RevokedToken.

(** The record store: one list of rows per table. *)
Record Session : Type := mkSession {
  users : list User.t;
  guardians : list Guardian.t;
  students : list Student.t;
  staffs : list Staff.t;
  security_operatives : list SecurityOperative.t;
  exeat_requests : list ExeatRequest.t;
  revoked_tokens : list RevokedToken.t
}.

Definition empty_db : Session := mkSession [] [] [] [] [] [] [].

Definition set_exeat_requests (db : Session) (l : list ExeatRequest.t) : Session :=
  mkSession (users db) (guardians db) (students db) (staffs db)
            (security_operatives db) l (revoked_tokens db).

Definition set_revoked_tokens (db : Session) (l : list RevokedToken.t) : Session :=
  mkSession (users db) (guardians db) (students db) (staffs db)
            (security_operatives db) (exeat_requests db) l.

Definition set_users (db : Session) (l : list User.t) : Session :=
  mkSession l (guardians db) (students db) (staffs db)
            (security_operatives db) (exeat_requests db) (revoked_tokens db).

Definition set_guardians (db : Session) (l : list Guardian.t) : Session :=
  mkSession (users db) l (students db) (staffs db)
            (security_operatives db) (exeat_requests db) (revoked_tokens db).

Definition set_students (db : Session) (l : list Student.t) : Session :=
  mkSession (users db) (guardians db) l (staffs db)
            (security_operatives db) (exeat_requests db) (revoked_tokens db).

Definition set_staffs (db : Session) (l : list Staff.t) : Session :=
  mkSession (users db) (guardians db) (students db) l
            (security_operatives db) (exeat_requests db) (revoked_tokens db).

Definition set_security_operatives (db : Session)
  (l : list SecurityOperative.t) : Session :=
  mkSession (users db) (guardians db) (students db) (staffs db)
            l (exeat_requests db) (revoked_tokens db).

(** An integer primary key left unset is assigned on insert: one more than
    the largest key of the table. *)
Definition next_id (ids : list Z) : Z := 1 + fold_right Z.max 0 ids.

(** ** The SQL fragment the routers build

    A column value is an integer or NULL.  Comparisons and [OR] follow SQL's
    three-valued logic and yield 1, 0 or NULL; an operand that is not a
    comparison is read as a number and counts as true when it is not zero. *)
Definition sql_value : Type := option Z.

Definition sql_truth (v : sql_value) : option bool :=
  option_map (fun z => negb (z =? 0)) v.

Definition sql_eq (a b : sql_value) : sql_value :=
  match a, b with
  | Some x, Some y => Some (if x =? y then 1 else 0)
  | _, _ => None
  end.

Definition sql_is_null (a : sql_value) : sql_value :=
  match a with
  | None => Some 1
  | Some _ => Some 0
  end.

(** [sqlmodel.or_]: the SQL disjunction of its two operands. *)
Definition or_ (a b : sql_value) : sql_value :=
  match sql_truth a, sql_truth b with
  | Some true, _ => Some 1
  | _, Some true => Some 1
  | Some false, Some false => Some 0
  | _, _ => None
  end.

(** A row passes a WHERE clause when the clause evaluates to true. *)
Definition sql_holds (v : sql_value) : bool :=
  match sql_truth v with
  | Some true => true
  | _ => false
  end.

(** ORDER BY compares values with NULL below every number. *)
Definition sql_leb (a b : sql_value) : bool :=
  match a, b with
  | None, _ => true
  | Some _, None => false
  | Some x, Some y => x <=? y
  end.

(** [Select[ExeatRequest]]: the WHERE conjuncts added so far. *)
Definition Select : Type := list (ExeatRequest.t -> sql_value).

Definition select_ExeatRequest : Select := [].

Definition where_ (q : Select) (clause : ExeatRequest.t -> sql_value) : Select :=
  q ++ [clause].

Definition passes (q : Select) (r : ExeatRequest.t) : bool :=
  forallb (fun clause => sql_holds (clause r)) q.

(** [db.exec(query).all()] for a query without ORDER BY. *)
Definition exec_all (db : Session) (q : Select) : list ExeatRequest.t :=
  filter (passes q) (exeat_requests db).

(** [db.exec(query).one()] *)
Definition exec_one (db : Session) (q : Select) : Result ExeatRequest.t :=
  match exec_all db q with
  | [] => Raise NoResultFound
  | [r] => Ok r
  | _ :: _ :: _ => Raise MultipleResultsFound
  end.

(** A stable sort: rows with equal keys keep their table order. *)
Fixpoint insert_by {A : Type} (le : A -> A -> bool) (x : A) (l : list A) : list A :=
  match l with
  | [] => [x]
  | y :: l' => if le x y then x :: y :: l' else y :: insert_by le x l'
  end.

Definition sort_by {A : Type} (le : A -> A -> bool) (l : list A) : list A :=
  fold_right (insert_by le) [] l.

(** [asc(key)] and [desc(key)] *)
Definition asc {A : Type} (key : A -> sql_value) : A -> A -> bool :=
  fun a b => sql_leb (key a) (key b).
Definition desc {A : Type} (key : A -> sql_value) : A -> A -> bool :=
  fun a b => sql_leb (key b) (key a).

(** [query.offset(start).limit(page_size)]; a negative OFFSET skips nothing. *)
Definition offset_limit {A : Type} (start size : Z) (rows : list A) : list A :=
  firstn (Z.to_nat size) (skipn (Z.to_nat start) rows).

(** ** db/crud.py *)

(** [db.get(ExeatRequest, exeat_request_id)] *)
Definition db_get_exeat (db : Session) (exeat_request_id : Z)
  : option ExeatRequest.t :=
  find (fun r => ExeatRequest.id r =? exeat_request_id) (exeat_requests db).

(** [get_exeat_request]: the lookup raises when the row is missing; it never
    returns [None]. *)
Definition get_exeat_request (db : Session) (exeat_request_id : Z)
  : Result ExeatRequest.t :=
  match db_get_exeat db exeat_request_id with
  | Some r => Ok r
  | None => Raise (ExeatRequestNotFound exeat_request_id)
  end.

(** [db.merge(row); db.commit()]: the row replaces the stored row that has
    its primary key. *)
Definition merge_exeat (db : Session) (row : ExeatRequest.t) : Session :=
  set_exeat_requests db
    (map (fun r => if ExeatRequest.id r =? ExeatRequest.id row then row else r)
         (exeat_requests db)).

(** [db.add(row); db.commit(); db.refresh(row)] for a row without a key. *)
Definition add_exeat (db : Session) (row : Z -> ExeatRequest.t)
  : Session * ExeatRequest.t :=
  let r := row (next_id (map ExeatRequest.id (exeat_requests db))) in
  (set_exeat_requests db (exeat_requests db ++ [r]), r).

(** ** routers/staff.py: review *)

Definition reviewed (r : ExeatRequest.t) (decision : ExeatRequestStatusEnum)
  (staff : Staff.t) (comment : option string) (now : Z) : ExeatRequest.t :=
  ExeatRequest.mk (ExeatRequest.id r) (ExeatRequest.student_id r)
    (ExeatRequest.leave_start r) (ExeatRequest.leave_end r)
    (ExeatRequest.submission_time r) (ExeatRequest.reason r)
    decision (Some (Staff.id staff)) (Some now) comment.

(** [approve_exeat_request].  The guard [if not exeat_request] that follows
    the lookup in the source can never fire: [get_exeat_request] has already
    raised, and a loaded row is truthy. *)
Definition approve_exeat_request (db : Session) (staff : Staff.t)
  (exeat_id : Z) (comment : option string) (now : Z)
  : Result (Session * ExeatRequest.t) :=
  exeat_request <- get_exeat_request db exeat_id ;;
  if negb (status_eqb (ExeatRequest.status_id exeat_request) PENDING)
  then Raise (HTTPException HTTP_400_BAD_REQUEST "Request is not pending")
  else
    let exeat_request := reviewed exeat_request APPROVED staff comment now in
    Ok (merge_exeat db exeat_request, exeat_request).

(** [deny_exeat_request] *)
Definition deny_exeat_request (db : Session) (staff : Staff.t)
  (exeat_id : Z) (comment : option string) (now : Z)
  : Result (Session * ExeatRequest.t) :=
  exeat_request <- get_exeat_request db exeat_id ;;
  if negb (status_eqb (ExeatRequest.status_id exeat_request) PENDING)
  then Raise (HTTPException HTTP_400_BAD_REQUEST "Request is not pending")
  else
    let exeat_request := reviewed exeat_request DENIED staff comment now in
    Ok (merge_exeat db exeat_request, exeat_request).

(** ** routers/student.py: submit *)

(** [ExeatRequestCreate], as the handler receives it. *)
Record ExeatRequestCreate : Type := mkExeatRequestCreate {
  create_leave_start : Z;
  create_leave_end : Z;
  create_reason : string
}.

(** [submit_exeat_request] *)
Definition submit_exeat_request (db : Session) (exeat_request : ExeatRequestCreate)
  (current_student : Student.t) (now : Z) : Result (Session * ExeatRequest.t) :=
  Ok (add_exeat db (fun new_id =>
        ExeatRequest.mk new_id (Student.id current_student)
          (create_leave_start exeat_request) (create_leave_end exeat_request)
          now (create_reason exeat_request) PENDING None None None)).

(** ** routers/common.py: the shared pagination engine *)

Inductive SortKey : Type := last_updated | leave_start | leave_end.

Record PaginatedExeatsResponse : Type := mkPaginated {
  total_items : Z;
  total_pages : Z;
  page_size_of : Z;
  current_page : Z;
  items : list ExeatRequest.t
}.

(** A datetime column as an operand of [OR].  The store keeps a datetime as
    text that starts with its year, and reads that text as a number when a
    number is asked for: a year, from 1 up, so never zero.  Only that it is
    not zero matters to [OR], and the operand is given as 1. *)
Definition datetime_operand (t : option Z) : sql_value :=
  option_map (fun _ => 1) t.

(** The expression each sort key orders by.  For [last_updated] the source
    passes [or_(staff_review_time, submission_time)] to [asc]/[desc]. *)
Definition order_key (sort : SortKey) (r : ExeatRequest.t) : sql_value :=
  match sort with
  | last_updated =>
      or_ (datetime_operand (ExeatRequest.staff_review_time r))
          (datetime_operand (Some (ExeatRequest.submission_time r)))
  | leave_start => Some (ExeatRequest.leave_start r)
  | leave_end => Some (ExeatRequest.leave_end r)
  end.

Definition status_clause (s : ExeatRequestStatusEnum) : ExeatRequest.t -> sql_value :=
  fun r => sql_eq (Some (status_value (ExeatRequest.status_id r)))
                  (Some (status_value s)).

(** The filtered and ordered rows, before OFFSET and LIMIT. *)
Definition ordered_rows (db : Session) (query : Select)
  (status_id : option ExeatRequestStatusEnum) (sort : SortKey) (ascending : bool)
  : list ExeatRequest.t :=
  let query :=
    match status_id with
    | Some s => where_ query (status_clause s)
    | None => query
    end in
  let sort_func := if ascending then asc else desc in
  sort_by (sort_func (order_key sort)) (exec_all db query).

(** [paginated_exeats_query] *)
Definition paginated_exeats_query (db : Session) (query : Select)
  (page page_size : Z) (status_id : option ExeatRequestStatusEnum)
  (sort : SortKey) (ascending : bool) : PaginatedExeatsResponse :=
  let rows := ordered_rows db query status_id sort ascending in
  let total_items := Z.of_nat (List.length rows) in
  let total_pages := (total_items + page_size - 1) / page_size in
  let page := Z.min page total_pages in
  let start := (page - 1) * page_size in
  mkPaginated total_items total_pages page_size page
              (offset_limit start page_size rows).

(** ** routers/staff.py and routers/security.py: listings and fetches *)

Definition id_clause (exeat_id : Z) : ExeatRequest.t -> sql_value :=
  fun r => sql_eq (Some (ExeatRequest.id r)) (Some exeat_id).

(** [or_(ExeatRequest.staff_id == staff.id, ExeatRequest.staff_id == None)] *)
Definition staff_clause (staff : Staff.t) : ExeatRequest.t -> sql_value :=
  fun r => or_ (sql_eq (ExeatRequest.staff_id r) (Some (Staff.id staff)))
               (sql_is_null (ExeatRequest.staff_id r)).

Definition student_clause (student : Student.t) : ExeatRequest.t -> sql_value :=
  fun r => sql_eq (Some (ExeatRequest.student_id r)) (Some (Student.id student)).

(** staff [get_exeats] *)
Definition staff_get_exeats (db : Session) (staff : Staff.t) (page page_size : Z)
  (_status : option ExeatRequestStatusEnum) (sort : SortKey) (ascending : bool)
  : PaginatedExeatsResponse :=
  let query := where_ select_ExeatRequest (staff_clause staff) in
  paginated_exeats_query db query page page_size _status sort ascending.

Definition error_exeat_request_not_found : Error :=
  HTTPException HTTP_404_NOT_FOUND "Exeat request not found".

Definition one_or_404 (r : Result ExeatRequest.t) : Result ExeatRequest.t :=
  match r with
  | Raise NoResultFound => Raise error_exeat_request_not_found
  | other => other
  end.

(** staff [get_exeat] *)
Definition staff_get_exeat (db : Session) (exeat_id : Z) (staff : Staff.t)
  : Result ExeatRequest.t :=
  let query :=
    where_ (where_ select_ExeatRequest (id_clause exeat_id)) (staff_clause staff) in
  one_or_404 (exec_one db query).

(** security [get_exeats]: the status filter is fixed to APPROVED. *)
Definition security_get_exeats (db : Session)
  (security_operative : SecurityOperative.t) (page page_size : Z)
  (sort : SortKey) (ascending : bool) : PaginatedExeatsResponse :=
  paginated_exeats_query db select_ExeatRequest page page_size
                         (Some APPROVED) sort ascending.

(** security [get_exeat]: the query filters on the id alone. *)
Definition security_get_exeat (db : Session) (exeat_id : Z)
  (security_operative : SecurityOperative.t) : Result ExeatRequest.t :=
  let query := where_ select_ExeatRequest (id_clause exeat_id) in
  one_or_404 (exec_one db query).

(** student [get_exeats] *)
Definition student_get_exeats (db : Session) (student : Student.t)
  (page page_size : Z) (_status : option ExeatRequestStatusEnum)
  (sort : SortKey) (ascending : bool) : PaginatedExeatsResponse :=
  let query := where_ select_ExeatRequest (student_clause student) in
  paginated_exeats_query db query page page_size _status sort ascending.

(** ** revocation.py and routers/auth.py: tokens and sessions *)

Definition ACCESS_TOKEN_EXPIRE_MINUTES : Z := 30.

(** The payload of a bearer token. *)
Record Claims : Type := mkClaims {
  claim_sub : option string;
  claim_iat : option Z;
  claim_exp : Z
}.

(** A well-formed bearer token: its decoded payload segment and its signature
    segment, the part after the last dot. *)
Record Jwt : Type := mkJwt {
  jwt_payload : Claims;
  jwt_signature : string
}.

(** [jwt.rsplit(".", 1)[1]] *)
Definition rsplit_sig (jwt : Jwt) : string := jwt_signature jwt.

(** [db.get(RevokedToken, sig)] *)
Definition db_get_revoked (db : Session) (sig : string) : option RevokedToken.t :=
  find (fun row => String.eqb (RevokedToken.sig row) sig) (revoked_tokens db).

(** [db.merge(RevokedToken(sig, exp)); db.commit()]: insert, or overwrite the
    row that has this signature. *)
Definition merge_revoked (db : Session) (row : RevokedToken.t) : Session :=
  match db_get_revoked db (RevokedToken.sig row) with
  | Some _ =>
      set_revoked_tokens db
        (map (fun r => if String.eqb (RevokedToken.sig r) (RevokedToken.sig row)
                       then row else r)
             (revoked_tokens db))
  | None => set_revoked_tokens db (revoked_tokens db ++ [row])
  end.

(** [revoke_jwt] *)
Definition revoke_jwt (db : Session) (jwt : Jwt) (exp : Z) : Session :=
  let sig := rsplit_sig jwt in
  merge_revoked db (RevokedToken.mk sig exp).

(** [is_jwt_revoked] *)
Definition is_jwt_revoked (db : Session) (jwt : Jwt) : bool :=
  let sig := rsplit_sig jwt in
  match db_get_revoked db sig with
  | Some _ => true
  | None => false
  end.

Definition expired_row (now : Z) (row : RevokedToken.t) : bool :=
  RevokedToken.exp row <? now.

(** [Query.one_or_none()] *)
Definition one_or_none {A : Type} (rows : list A) : Result (option A) :=
  match rows with
  | [] => Ok None
  | [row] => Ok (Some row)
  | _ :: _ :: _ => Raise MultipleResultsFound
  end.

(** [cleanup_expired_revoked_tokens]: the bulk delete runs only after
    [one_or_none] has returned a row. *)
Definition cleanup_expired_revoked_tokens (db : Session) (now : Z) : Result Session :=
  let tokens := filter (expired_row now) (revoked_tokens db) in
  found <- one_or_none tokens ;;
  match found with
  | Some _ =>
      Ok (set_revoked_tokens db
            (filter (fun row => negb (expired_row now row)) (revoked_tokens db)))
  | None => Ok db
  end.

Definition error_invalid_credentials : Error :=
  HTTPException HTTP_401_UNAUTHORIZED "Not authenticated.".

Definition PROFILE_UNAUTHORIZED : string :=
  "User profile type does not have access to this resource.".

(** [UserCreate], as [signup] receives it. *)
Record UserCreate : Type := mkUserCreate {
  uc_user_type : UserTypeEnum;
  uc_email : string;
  uc_password : string;
  uc_first_name : string;
  uc_last_name : string;
  uc_phone_number : string;
  uc_is_active : bool;
  uc_is_verified : bool;
  uc_matriculation_number : option string;
  uc_course_of_study : option string;
  uc_guardian_name : option string;
  uc_guardian_phone_number : option string;
  uc_guardian_relationship : option string;
  uc_staff_id : option string;
  uc_designation : option string;
  uc_security_id : option string
}.

Definition is_set (field : option string) : bool :=
  match field with Some _ => true | None => false end.

(** [UserCreate.validate_based_on_user_type]: the fields each user type
    requires are set. *)
Definition validate_based_on_user_type (d : UserCreate) : bool :=
  match uc_user_type d with
  | STUDENT =>
      is_set (uc_matriculation_number d) && is_set (uc_course_of_study d)
      && is_set (uc_guardian_name d) && is_set (uc_guardian_phone_number d)
      && is_set (uc_guardian_relationship d)
  | STAFF => is_set (uc_staff_id d) && is_set (uc_designation d)
  | SECURITY_OPERATIVE => is_set (uc_security_id d) && is_set (uc_designation d)
  | ADMIN => true
  end.

Record UserResponse : Type := mkUserResponse {
  ur_first_name : string;
  ur_last_name : string;
  ur_email : string;
  ur_user_type : UserTypeEnum;
  ur_is_active : bool;
  ur_is_verified : bool;
  ur_profile_picture : option string
}.

(** The body of a token response. *)
Record Token : Type := mkToken {
  access_token : Jwt;
  token_type : string;
  expires_in : Z
}.

Record SignupResponse : Type := mkSignupResponse {
  signup_token : Token;
  signup_user : UserResponse
}.

Record OAuth2PasswordRequestForm : Type := mkForm {
  username : string;
  password : string
}.

Section Auth.

(** The primitives the module imports: HS256 under [SECRET_KEY] over the
    header and payload segments, bcrypt, and the e-mail syntax check. *)
Variable hs256 : Claims -> string.
Variable hashpw : string -> string -> string.
Variable checkpw : string -> string -> bool.
Variable email_valid : string -> bool.

(** [jwt.encode] *)
Definition encode (to_encode : Claims) : Jwt :=
  mkJwt to_encode (hs256 to_encode).

(** [create_access_token({"sub": sub}, expires_delta)]; a zero
    [expires_delta] is falsy and falls back to the default. *)
Definition create_access_token (sub : string) (expires_delta : option Z)
  (now : Z) : Jwt :=
  let iat := now in
  let expire :=
    match expires_delta with
    | Some d => if d =? 0 then iat + ACCESS_TOKEN_EXPIRE_MINUTES * 60 else iat + d
    | None => iat + ACCESS_TOKEN_EXPIRE_MINUTES * 60
    end in
  encode (mkClaims (Some sub) (Some iat) expire).

(** [decoded_token]: [jwt.decode] recomputes the signature, rejects a token
    whose [exp] is not in the future, and rejects a token that carries an
    [iat] later than the current time. *)
Definition decoded_token (now : Z) (token : Jwt) : Result Claims :=
  if String.eqb (jwt_signature token) (hs256 (jwt_payload token))
     && (now <? claim_exp (jwt_payload token))
     && match claim_iat (jwt_payload token) with
        | Some iat => iat <=? now
        | None => true
        end
  then Ok (jwt_payload token)
  else Raise error_invalid_credentials.

(** [db.query(User).where(User.email == email).first()] *)
Definition first_user_by_email (db : Session) (email : string) : option User.t :=
  find (fun u => String.eqb (User.email u) email) (users db).

(** [get_current_user], with its [decoded_token] dependency resolved
    first. *)
Definition get_current_user (db : Session) (token : Jwt) (now : Z)
  : Result User.t :=
  token_payload <- decoded_token now token ;;
  if is_jwt_revoked db token then Raise error_invalid_credentials
  else
    let email := claim_sub token_payload in
    iat <- match claim_iat token_payload with
           | Some t => Ok t
           | None => Raise TypeError
           end ;;
    match email with
    | None => Raise error_invalid_credentials
    | Some email =>
        match first_user_by_email db email with
        | None => Raise error_invalid_credentials
        | Some user =>
            if User.time_joined user >? iat
            then Raise error_invalid_credentials
            else Ok user
        end
    end.

(** [get_current_student] *)
Definition get_current_student (db : Session) (token : Jwt) (now : Z)
  : Result Student.t :=
  user <- get_current_user db token now ;;
  match find (fun p => Student.user_id p =? User.id user) (students db) with
  | Some student => Ok student
  | None => Raise (HTTPException HTTP_403_FORBIDDEN PROFILE_UNAUTHORIZED)
  end.

(** [get_current_staff] *)
Definition get_current_staff (db : Session) (token : Jwt) (now : Z)
  : Result Staff.t :=
  user <- get_current_user db token now ;;
  match find (fun p => Staff.user_id p =? User.id user) (staffs db) with
  | Some staff => Ok staff
  | None => Raise (HTTPException HTTP_403_FORBIDDEN PROFILE_UNAUTHORIZED)
  end.

(** [get_current_security_operative] *)
Definition get_current_security_operative (db : Session) (token : Jwt) (now : Z)
  : Result SecurityOperative.t :=
  user <- get_current_user db token now ;;
  match find (fun p => SecurityOperative.user_id p =? User.id user)
             (security_operatives db) with
  | Some security_operative => Ok security_operative
  | None => Raise (HTTPException HTTP_403_FORBIDDEN PROFILE_UNAUTHORIZED)
  end.

(** [authenticate_user] *)
Definition authenticate_user (db : Session) (email password : string)
  : option User.t :=
  if negb (email_valid email) then None
  else
    match first_user_by_email db email with
    | None => None
    | Some user =>
        if negb (checkpw password (User.hashed_password user)) then None
        else Some user
    end.

Definition token_response (jwt : Jwt) : Token :=
  mkToken jwt "bearer" (ACCESS_TOKEN_EXPIRE_MINUTES * 60).

(** [login] *)
Definition login (form : OAuth2PasswordRequestForm) (db : Session) (now : Z)
  : Result Token :=
  match authenticate_user db (username form) (password form) with
  | None =>
      Raise (HTTPException HTTP_401_UNAUTHORIZED "Incorrect email or password")
  | Some user =>
      Ok (token_response (create_access_token (User.email user) None now))
  end.


(** [db.delete(user); db.commit()] *)
Definition delete_user (db : Session) (user : User.t) : Session :=
  set_users db (filter (fun u => negb (User.id u =? User.id user)) (users db)).

(** [signup].  [joined_at] is the store's clock when the user row is
    inserted and [issued_at] the clock when the token is made.  Whatever was
    committed before an error stays in the returned store.  The e-mail
    column is unique and the profile columns are NOT NULL, so an insert
    that breaks either raises at its commit.  Only the guardian's insert
    sits inside the handler's [try]: when its commit fails, the handler's
    [except] branch deletes the user and commits on the session whose flush
    has just failed, and that commit raises [PendingRollbackError], so the
    400 response of that branch is never sent and the user row stays. *)
Definition signup (user_data : UserCreate) (db : Session) (salt : string)
  (joined_at issued_at : Z) : Session * Result SignupResponse :=
  let user_type := uc_user_type user_data in
  let hashed_password := hashpw (uc_password user_data) salt in
  if existsb (fun u => String.eqb (User.email u) (uc_email user_data)) (users db)
  then (db, Raise IntegrityError)
  else
    let user :=
      User.mk (next_id (map User.id (users db)))
              (uc_first_name user_data) (uc_last_name user_data)
              (uc_email user_data) (uc_phone_number user_data)
              hashed_password (uc_is_active user_data)
              (uc_is_verified user_data) user_type None joined_at in
    let db := set_users db (users db ++ [user]) in
    let logged_in (db : Session) :=
      (db,
       Ok (mkSignupResponse
             (token_response (create_access_token (User.email user) None issued_at))
             (mkUserResponse (User.first_name user) (User.last_name user)
                (User.email user) user_type (User.is_active user)
                (User.is_verified user) (User.profile_picture_id user)))) in
    match user_type with
    | STUDENT =>
        match uc_guardian_name user_data, uc_guardian_phone_number user_data with
        | Some g_name, Some g_phone =>
            let guardian :=
              Guardian.mk (next_id (map Guardian.id (guardians db)))
                          g_name g_phone in
            let db := set_guardians db (guardians db ++ [guardian]) in
            match uc_matriculation_number user_data,
                  uc_course_of_study user_data,
                  uc_guardian_relationship user_data with
            | Some matric, Some course, Some relationship =>
                let profile :=
                  Student.mk (next_id (map Student.id (students db)))
                             (User.id user) matric course
                             (Guardian.id guardian) relationship in
                logged_in (set_students db (students db ++ [profile]))
            | _, _, _ => (db, Raise IntegrityError)
            end
        | _, _ =>
            (db, Raise PendingRollbackError)
        end
    | STAFF =>
        match uc_staff_id user_data, uc_designation user_data with
        | Some staff_id, Some designation =>
            let profile :=
              Staff.mk (next_id (map Staff.id (staffs db)))
                       (User.id user) staff_id designation in
            logged_in (set_staffs db (staffs db ++ [profile]))
        | _, _ => (db, Raise IntegrityError)
        end
    | SECURITY_OPERATIVE =>
        match uc_security_id user_data, uc_designation user_data with
        | Some security_id, Some designation =>
            let profile :=
              SecurityOperative.mk
                (next_id (map SecurityOperative.id (security_operatives db)))
                (User.id user) security_id designation in
            logged_in (set_security_operatives db
                         (security_operatives db ++ [profile]))
        | _, _ => (db, Raise IntegrityError)
        end
    | ADMIN =>
        (delete_user db user,
         Raise (HTTPException HTTP_400_BAD_REQUEST
                              "Unsupported user type for profile creation."))
    end.

(** The user row that [signup] inserts, named for the statements below. *)
Definition created_user (db : Session) (d : UserCreate) (salt : string)
  (joined_at : Z) : User.t :=
  User.mk (next_id (map User.id (users db)))
          (uc_first_name d) (uc_last_name d) (uc_email d) (uc_phone_number d)
          (hashpw (uc_password d) salt) (uc_is_active d) (uc_is_verified d)
          (uc_user_type d) None joined_at.

End Auth.

(** What the optional status filter of a listing asks of a row. *)
Definition status_matches (filter_ : option ExeatRequestStatusEnum)
  (r : ExeatRequest.t) : Prop :=
  match filter_ with
  | Some s => ExeatRequest.status_id r = s
  | None => True
  end.

(** ** db/models.py: the names of the enumerations *)

(** [str.upper] and [str.lower], on ASCII text. *)
Definition upper_char (c : ascii) : ascii :=
  let n := nat_of_ascii c in
  if ((97 <=? n) && (n <=? 122))%nat then ascii_of_nat (n - 32) else c.

Definition lower_char (c : ascii) : ascii :=
  let n := nat_of_ascii c in
  if ((65 <=? n) && (n <=? 90))%nat then ascii_of_nat (n + 32) else c.

Fixpoint str_upper (s : string) : string :=
  match s with
  | EmptyString => EmptyString
  | String c rest => String (upper_char c) (str_upper rest)
  end.

Fixpoint str_lower (s : string) : string :=
  match s with
  | EmptyString => EmptyString
  | String c rest => String (lower_char c) (str_lower rest)
  end.

(** Text whose characters are all ASCII; on such text [str.upper] and
    [str.lower] change the letters a-z and A-Z only, as [str_upper] and
    [str_lower] do. *)
Definition is_ascii_char (c : ascii) : bool := (nat_of_ascii c <? 128)%nat.

Fixpoint is_ascii_text (s : string) : bool :=
  match s with
  | EmptyString => true
  | String c rest => is_ascii_char c && is_ascii_text rest
  end.

Definition status_name (s : ExeatRequestStatusEnum) : string :=
  match s with
  | PENDING => "PENDING"
  | APPROVED => "APPROVED"
  | DENIED => "DENIED"
  end.

(** [ExeatRequestStatusEnum.safe_name] *)
Definition status_safe_name (s : ExeatRequestStatusEnum) : string :=
  str_lower (status_name s).

(** [ExeatRequestStatusEnum.from_safe_name]: [cls[name.upper()]], for a name
    of ASCII characters; [None] stands for the [KeyError] of a name the
    enumeration does not have.  Names with other characters are not covered:
    [str.upper] maps some of them to ASCII letters. *)
Definition status_from_safe_name (name : string) : option ExeatRequestStatusEnum :=
  find (fun s => String.eqb (status_name s) (str_upper name))
       [PENDING; APPROVED; DENIED].

Definition user_type_name (t : UserTypeEnum) : string :=
  match t with
  | ADMIN => "ADMIN"
  | STUDENT => "STUDENT"
  | STAFF => "STAFF"
  | SECURITY_OPERATIVE => "SECURITY_OPERATIVE"
  end.

(** [UserTypeEnum.safe_name] *)
Definition user_type_safe_name (t : UserTypeEnum) : string :=
  str_lower (user_type_name t).

(** [UserTypeEnum.from_safe_name], for a name of ASCII characters. *)
Definition user_type_from_safe_name (name : string) : option UserTypeEnum :=
  find (fun t => String.eqb (user_type_name t) (str_upper name))
       [ADMIN; STUDENT; STAFF; SECURITY_OPERATIVE].

(** ** routers/common.py: the response model of a request *)

Record ExeatRequestResponse : Type := mkExeatRequestResponse {
  resp_id : Z;
  resp_leave_start : Z;
  resp_leave_end : Z;
  resp_submission_time : Z;
  resp_reason : string;
  resp_status : string;
  resp_staff_comment : option string;
  resp_staff_date : option Z
}.

(** [ExeatRequestResponse.validate_status] applied to a stored row, followed
    by the model's field validation: the row is dumped to a dictionary, the
    key [status] is added, and each response field takes the value of the
    key of its own name.  No key of the dump is called [staff_date], so that
    field keeps its default. *)
Definition validate_status (values : ExeatRequest.t) : ExeatRequestResponse :=
  mkExeatRequestResponse
    (ExeatRequest.id values) (ExeatRequest.leave_start values)
    (ExeatRequest.leave_end values) (ExeatRequest.submission_time values)
    (ExeatRequest.reason values)
    (status_safe_name (ExeatRequest.status_id values))
    (ExeatRequest.staff_comment values) None.

(** The page numbers 1, ..., [total_pages]. *)
Definition page_numbers (total_pages : Z) : list Z :=
  map Z.of_nat (seq 1 (Z.to_nat total_pages)).

(** ** db/crud.py: the other operations on requests *)

Definition with_id (new_id : Z) (r : ExeatRequest.t) : ExeatRequest.t :=
  ExeatRequest.mk new_id (ExeatRequest.student_id r) (ExeatRequest.leave_start r)
    (ExeatRequest.leave_end r) (ExeatRequest.submission_time r)
    (ExeatRequest.reason r) (ExeatRequest.status_id r) (ExeatRequest.staff_id r)
    (ExeatRequest.staff_review_time r) (ExeatRequest.staff_comment r).

(** [create_exeat_request], for a row whose key is still unset: the store
    assigns it, whatever the [id] field of the argument holds. *)
Definition create_exeat_request (db : Session) (exeat_request : ExeatRequest.t)
  : Session * ExeatRequest.t :=
  add_exeat db (fun new_id => with_id new_id exeat_request).

(** The keyword arguments of [update_exeat_request], one per column other
    than the key; [None] is an argument that is absent or [None]. *)
Record ExeatUpdates : Type := mkExeatUpdates {
  upd_student_id : option Z;
  upd_leave_start : option Z;
  upd_leave_end : option Z;
  upd_submission_time : option Z;
  upd_reason : option string;
  upd_status_id : option ExeatRequestStatusEnum;
  upd_staff_id : option Z;
  upd_staff_review_time : option Z;
  upd_staff_comment : option string
}.

Definition or_keep {A : Type} (value : option A) (current : A) : A :=
  match value with
  | Some v => v
  | None => current
  end.

Definition or_keep_opt {A : Type} (value : option A) (current : option A)
  : option A :=
  match value with
  | Some v => Some v
  | None => current
  end.

(** The loop [if value is not None: setattr(exeat_request, key, value)]. *)
Definition apply_updates (r : ExeatRequest.t) (updates : ExeatUpdates)
  : ExeatRequest.t :=
  ExeatRequest.mk (ExeatRequest.id r)
    (or_keep (upd_student_id updates) (ExeatRequest.student_id r))
    (or_keep (upd_leave_start updates) (ExeatRequest.leave_start r))
    (or_keep (upd_leave_end updates) (ExeatRequest.leave_end r))
    (or_keep (upd_submission_time updates) (ExeatRequest.submission_time r))
    (or_keep (upd_reason updates) (ExeatRequest.reason r))
    (or_keep (upd_status_id updates) (ExeatRequest.status_id r))
    (or_keep_opt (upd_staff_id updates) (ExeatRequest.staff_id r))
    (or_keep_opt (upd_staff_review_time updates) (ExeatRequest.staff_review_time r))
    (or_keep_opt (upd_staff_comment updates) (ExeatRequest.staff_comment r)).

(** [update_exeat_request] *)
Definition update_exeat_request (db : Session) (exeat_request_id : Z)
  (updates : ExeatUpdates) : Result (Session * ExeatRequest.t) :=
  exeat_request <- get_exeat_request db exeat_request_id ;;
  let exeat_request := apply_updates exeat_request updates in
  Ok (merge_exeat db exeat_request, exeat_request).

(** [delete_exeat_request] *)
Definition delete_exeat_request (db : Session) (exeat_request_id : Z)
  : Result Session :=
  exeat_request <- get_exeat_request db exeat_request_id ;;
  Ok (set_exeat_requests db
        (filter (fun r => negb (ExeatRequest.id r =? ExeatRequest.id exeat_request))
                (exeat_requests db))).

(** ** routers/student.py: the fetch of one request *)

(** student [get_exeat] *)
Definition student_get_exeat (exeat_id : Z) (db : Session)
  (current_student : Student.t) : Result ExeatRequest.t :=
  let query :=
    where_ (where_ select_ExeatRequest (student_clause current_student))
           (id_clause exeat_id) in
  one_or_404 (exec_one db query).

(** ** routers/account.py *)

Definition user_response (u : User.t) : UserResponse :=
  mkUserResponse (User.first_name u) (User.last_name u) (User.email u)
                 (User.user_type_id u) (User.is_active u) (User.is_verified u)
                 (User.profile_picture_id u).

(** [get_account_info] *)
Definition get_account_info (current_user : User.t) : UserResponse :=
  user_response current_user.

(** [UpdateUserInfo]: for each field, [None] when the request left it unset
    and [Some value] when it set it, where the value itself may be null. *)
Record UpdateUserInfo : Type := mkUpdateUserInfo {
  upd_first_name : option (option string);
  upd_last_name : option (option string);
  upd_email : option (option string)
}.

Definition is_unset {A : Type} (field : option A) : bool :=
  match field with
  | None => true
  | Some _ => false
  end.

(** The column after the [setattr] loop over the set fields. *)
Definition assigned (field : option (option string)) (current : string)
  : option string :=
  match field with
  | Some value => value
  | None => Some current
  end.

(** [db.add(user); db.commit()] for a row that is already stored. *)
Definition merge_user (db : Session) (row : User.t) : Session :=
  set_users db
    (map (fun u => if User.id u =? User.id row then row else u) (users db)).

(** [update_account_info].  The user columns are NOT NULL and the e-mail
    column is unique, so a commit that would store a null or a second row
    with the same e-mail raises. *)
Definition update_account_info (updates : UpdateUserInfo) (db : Session)
  (current_user : User.t) : Result (Session * UserResponse) :=
  if is_unset (upd_first_name updates) && is_unset (upd_last_name updates)
     && is_unset (upd_email updates)
  then Ok (db, user_response current_user)
  else
    match assigned (upd_first_name updates) (User.first_name current_user),
          assigned (upd_last_name updates) (User.last_name current_user),
          assigned (upd_email updates) (User.email current_user) with
    | Some first_name, Some last_name, Some email =>
        if existsb (fun u => negb (User.id u =? User.id current_user)
                             && String.eqb (User.email u) email) (users db)
        then Raise IntegrityError
        else
          let current_user :=
            User.mk (User.id current_user) first_name last_name email
                    (User.phone_number current_user)
                    (User.hashed_password current_user)
                    (User.is_active current_user) (User.is_verified current_user)
                    (User.user_type_id current_user)
                    (User.profile_picture_id current_user)
                    (User.time_joined current_user) in
          Ok (merge_user db current_user, user_response current_user)
    | _, _, _ => Raise IntegrityError
    end.

(** [delete_account]: the user row is deleted and no other table is touched.
    The models declare no cascade, and the store is taken not to enforce the
    foreign keys of the profile tables (SQLite's default), so the delete goes
    through for a user who has a profile. *)
Definition delete_account (db : Session) (current_user : User.t) : Session :=
  delete_user db current_user.

Inductive Profile : Type :=
| StudentProfile (profile : Student.t)
| StaffProfile (profile : Staff.t)
| SecurityOperativeProfile (profile : SecurityOperative.t).

(** [get_user_profile]: the user type of the answer and the profile row. *)
Definition get_user_profile (db : Session) (current_user : User.t)
  : Result (UserTypeEnum * Profile) :=
  match find (fun p => Student.user_id p =? User.id current_user) (students db) with
  | Some student_profile => Ok (STUDENT, StudentProfile student_profile)
  | None =>
      match find (fun p => Staff.user_id p =? User.id current_user) (staffs db) with
      | Some staff_profile => Ok (STAFF, StaffProfile staff_profile)
      | None =>
          match find (fun p => SecurityOperative.user_id p =? User.id current_user)
                     (security_operatives db) with
          | Some security_profile =>
              Ok (SECURITY_OPERATIVE, SecurityOperativeProfile security_profile)
          | None =>
              Raise (HTTPException HTTP_404_NOT_FOUND "User profile not found")
          end
      end
  end.

(** ** Invariants of the store *)

(** The review columns of a row agree with its status: all null while the
    request is pending, reviewer and review time set once it is decided. *)
Definition review_fields_consistent (r : ExeatRequest.t) : Prop :=
  match ExeatRequest.status_id r with
  | PENDING =>
      ExeatRequest.staff_id r = None
      /\ ExeatRequest.staff_review_time r = None
      /\ ExeatRequest.staff_comment r = None
  | _ =>
      ExeatRequest.staff_id r <> None
      /\ ExeatRequest.staff_review_time r <> None
  end.

(** The request table as the store keeps it: keys are unique and every row's
    review columns agree with its status. *)
Definition exeat_table_ok (db : Session) : Prop :=
  NoDup (map ExeatRequest.id (exeat_requests db))
  /\ Forall review_fields_consistent (exeat_requests db).

(** The order that a sort by a leave timestamp asks for. *)
Definition in_leave_order (key : ExeatRequest.t -> Z) (ascending : bool)
  (a b : ExeatRequest.t) : Prop :=
  if ascending then key a <= key b else key b <= key a.

(** A list in which every row that [hit] selects is replaced by [row]. *)
Definition replace_hits (A : Type) (hit : A -> bool) (row : A) (l : list A)
  : list A :=
  map (fun r => if hit r then row else r) l.

(** The user table as the store keeps it: keys and e-mails are unique. *)
Definition users_ok (db : Session) : Prop :=
  NoDup (map User.id (users db)) /\ NoDup (map User.email (users db)).

(** ** Sample data *)

Definition staff_a : Staff.t := Staff.mk 1 10 "ST-001" "Hall warden".
Definition staff_b : Staff.t := Staff.mk 2 11 "ST-002" "Dean of students".
Definition student_s : Student.t := Student.mk 7 12 "2021/1234" "Physics" 1 "Mother".
Definition guard_g : SecurityOperative.t := SecurityOperative.mk 3 13 "SEC-9" "Gate".

(** A request filed at 100 and approved by [staff_a] at 200. *)
Definition exeat_reviewed : ExeatRequest.t :=
  ExeatRequest.mk 1 7 1000 2000 100 "Family event" APPROVED
                  (Some 1) (Some 200) (Some "Approved, safe travels").

(** A request filed at 300 and not reviewed yet. *)
Definition exeat_pending : ExeatRequest.t :=
  ExeatRequest.mk 2 7 3000 4000 300 "Medical" PENDING None None None.

Definition db_two : Session :=
  set_exeat_requests empty_db [exeat_reviewed; exeat_pending].

Definition db_pending : Session := set_exeat_requests empty_db [exeat_pending].

(** A ledger holding two rows that have both expired by time 10. *)
Definition db_two_expired : Session :=
  set_revoked_tokens empty_db
    [RevokedToken.mk "sig-a" 1; RevokedToken.mk "sig-b" 2].

(** Stand-ins for the imported primitives, for running the handlers on the
    samples: the signature repeats the subject and the two timestamps of the
    payload, the hash keeps the password behind its salt. *)
Definition sample_hs256 (c : Claims) : string :=
  match claim_sub c, claim_iat c with
  | Some s, Some t => s ++ (if t <? claim_exp c then "|signed" else "|odd")
  | _, _ => "anonymous"
  end.
Definition sample_hashpw (pw salt : string) : string := salt ++ "$" ++ pw.
Definition sample_checkpw (pw hashed : string) : bool :=
  String.eqb hashed ("salt$" ++ pw).
Definition sample_email_valid (email : string) : bool :=
  negb (String.eqb email "").

Definition ada_signup : UserCreate :=
  mkUserCreate STAFF "ada@example.edu" "s3cret" "Ada" "Obi" "0800" true false
               None None None None None (Some "ST-003") (Some "Porter") None.


Definition ada : User.t :=
  User.mk 1 "Ada" "Obi" "ada@example.edu" "0800" "salt$s3cret"
          true false STAFF None 100.

Definition db_ada : Session := set_users empty_db [ada].



(** ** Facts about the store and the SQL fragment *)

Lemma status_eqb_eq a b : status_eqb a b = true <-> a = b.
Proof. destruct a, b; cbv; split; congruence. Qed.

Lemma status_eqb_refl a : status_eqb a a = true.
Proof. now apply status_eqb_eq. Qed.

Lemma fold_max_ge (ids : list Z) :
  forall x, In x ids -> x <= fold_right Z.max 0 ids.
Proof.
  induction ids as [|y ids IH]; simpl; intros x Hx; [easy|].
  destruct Hx as [->|Hx]; [lia|]. specialize (IH x Hx). lia.
Qed.

Lemma next_id_fresh (ids : list Z) : ~ In (next_id ids) ids.
Proof.
  intros Hin. apply fold_max_ge in Hin. unfold next_id in Hin. lia.
Qed.

Lemma find_some_iff {A : Type} (f : A -> bool) (l : list A) :
  find f l = None <-> forall x, In x l -> f x = false.
Proof.
  split.
  - intros H x Hx. now apply (find_none f l H).
  - induction l as [|y l IH]; simpl; intros H; [reflexivity|].
    rewrite (H y (or_introl eq_refl)). apply IH. intros x Hx. apply H. now right.
Qed.

Lemma find_app_last {A : Type} (f : A -> bool) (l : list A) (x : A) :
  (forall y, In y l -> f y = false) -> f x = true ->
  find f (l ++ [x]) = Some x.
Proof.
  induction l as [|y l IH]; simpl; intros Hno Hx.
  - now rewrite Hx.
  - rewrite (Hno y (or_introl eq_refl)). apply IH; auto.
Qed.

(** ** The review transition *)

Lemma review_missing db staff exeat_id comment now :
  db_get_exeat db exeat_id = None ->
  approve_exeat_request db staff exeat_id comment now
    = Raise (ExeatRequestNotFound exeat_id)
  /\ deny_exeat_request db staff exeat_id comment now
    = Raise (ExeatRequestNotFound exeat_id).
Proof.
  intros H. unfold approve_exeat_request, deny_exeat_request, get_exeat_request.
  rewrite H. now split.
Qed.

Lemma review_not_pending db staff exeat_id comment now r :
  db_get_exeat db exeat_id = Some r ->
  ExeatRequest.status_id r <> PENDING ->
  approve_exeat_request db staff exeat_id comment now
    = Raise (HTTPException HTTP_400_BAD_REQUEST "Request is not pending")
  /\ deny_exeat_request db staff exeat_id comment now
    = Raise (HTTPException HTTP_400_BAD_REQUEST "Request is not pending").
Proof.
  intros H Hs. unfold approve_exeat_request, deny_exeat_request, get_exeat_request.
  rewrite H. simpl.
  destruct (status_eqb (ExeatRequest.status_id r) PENDING) eqn:E.
  - apply status_eqb_eq in E. contradiction.
  - now split.
Qed.

Lemma review_pending db staff exeat_id comment now r :
  db_get_exeat db exeat_id = Some r ->
  ExeatRequest.status_id r = PENDING ->
  approve_exeat_request db staff exeat_id comment now
    = Ok (merge_exeat db (reviewed r APPROVED staff comment now),
          reviewed r APPROVED staff comment now)
  /\ deny_exeat_request db staff exeat_id comment now
    = Ok (merge_exeat db (reviewed r DENIED staff comment now),
          reviewed r DENIED staff comment now).
Proof.
  intros H Hs. unfold approve_exeat_request, deny_exeat_request, get_exeat_request.
  rewrite H. simpl. rewrite Hs. now split.
Qed.

Lemma db_get_exeat_id db exeat_id r :
  db_get_exeat db exeat_id = Some r ->
  In r (exeat_requests db) /\ ExeatRequest.id r = exeat_id.
Proof.
  intros H. apply find_some in H. destruct H as [Hin Heq].
  split; [assumption | lia].
Qed.

(** Every stored row with the reviewed id carries the reviewer afterwards. *)
Lemma merge_exeat_rows db row r :
  In r (exeat_requests (merge_exeat db row)) ->
  ExeatRequest.id r = ExeatRequest.id row -> r = row.
Proof.
  unfold merge_exeat. simpl. rewrite in_map_iff.
  intros [r0 [Hr0 _]] Hid.
  destruct (ExeatRequest.id r0 =? ExeatRequest.id row) eqn:E; [now symmetry|].
  subst r0. apply Z.eqb_neq in E. contradiction.
Qed.

(** C1, at a concrete input: a review of an id that no request has does not
    end in the handler's 404 response.  The lookup helper raises its own
    [ExeatRequestNotFound], which nothing catches, so the 404 branch written
    after the lookup is never reached; approve and deny behave alike. *)
Theorem review_missing_id_is_uncaught :
  approve_exeat_request empty_db staff_a 999 None 50
    = Raise (ExeatRequestNotFound 999)
  /\ deny_exeat_request empty_db staff_a 999 None 50
    = Raise (ExeatRequestNotFound 999)
  /\ ExeatRequestNotFound 999 <> error_exeat_request_not_found.
Proof.
  repeat split; try reflexivity. discriminate.
Qed.

(** C9: submitting always succeeds, whatever the two leave timestamps are
    (also when the leave starts at or after its end) and whatever the reason
    and the student's other requests.  The request table of the new store is
    the old table with one row appended, and that row is read back by its
    key; it is owned by the student, pending, filed now, with a key no stored
    request had and no review fields; no other table changes. *)
Theorem submit_always_inserts_pending
  (db : Session) (student : Student.t) (start_ end_ : Z) (why : string) (now : Z) :
  exists (db' : Session) (r : ExeatRequest.t),
    submit_exeat_request db (mkExeatRequestCreate start_ end_ why) student now
      = Ok (db', r)
    /\ exeat_requests db' = exeat_requests db ++ [r]
    /\ get_exeat_request db' (ExeatRequest.id r) = Ok r
    /\ users db' = users db /\ students db' = students db
    /\ staffs db' = staffs db
    /\ security_operatives db' = security_operatives db
    /\ guardians db' = guardians db
    /\ revoked_tokens db' = revoked_tokens db
    /\ ExeatRequest.student_id r = Student.id student
    /\ ExeatRequest.status_id r = PENDING
    /\ ExeatRequest.submission_time r = now
    /\ ExeatRequest.leave_start r = start_
    /\ ExeatRequest.leave_end r = end_
    /\ ExeatRequest.reason r = why
    /\ ExeatRequest.staff_id r = None
    /\ ExeatRequest.staff_review_time r = None
    /\ ExeatRequest.staff_comment r = None
    /\ ~ In (ExeatRequest.id r) (map ExeatRequest.id (exeat_requests db)).
Proof.
  do 2 eexists. unfold submit_exeat_request, add_exeat.
  split; [reflexivity|].
  split; [reflexivity|].
  split.
  { unfold get_exeat_request, db_get_exeat. simpl.
    rewrite find_app_last; [reflexivity | | apply Z.eqb_refl].
    intros y Hy. apply Z.eqb_neq. intros Heq.
    apply (next_id_fresh (map ExeatRequest.id (exeat_requests db))).
    rewrite <- Heq. now apply in_map. }
  simpl. repeat split. apply next_id_fresh.
Qed.

(** C10: on every store, staff member, id, comment and time, approve and deny
    either both raise the same error or both succeed; when they succeed the
    denied record is the approved record with status denied in place of
    approved (same reviewer, review time and comment), and each store is the
    old one with that record merged in. *)
Theorem deny_mirrors_approve
  (db : Session) (staff : Staff.t) (exeat_id : Z) (comment : option string) (now : Z) :
  match approve_exeat_request db staff exeat_id comment now,
        deny_exeat_request db staff exeat_id comment now with
  | Ok (db_a, r_a), Ok (db_d, r_d) =>
      ExeatRequest.status_id r_a = APPROVED
      /\ ExeatRequest.status_id r_d = DENIED
      /\ ExeatRequest.staff_id r_a = Some (Staff.id staff)
      /\ ExeatRequest.staff_review_time r_a = Some now
      /\ ExeatRequest.staff_comment r_a = comment
      /\ r_d = ExeatRequest.mk
                 (ExeatRequest.id r_a) (ExeatRequest.student_id r_a)
                 (ExeatRequest.leave_start r_a) (ExeatRequest.leave_end r_a)
                 (ExeatRequest.submission_time r_a) (ExeatRequest.reason r_a)
                 DENIED (ExeatRequest.staff_id r_a)
                 (ExeatRequest.staff_review_time r_a)
                 (ExeatRequest.staff_comment r_a)
      /\ db_a = merge_exeat db r_a
      /\ db_d = merge_exeat db r_d
  | Raise e_a, Raise e_d => e_a = e_d
  | _, _ => False
  end
  /\ ((exists out, approve_exeat_request db staff exeat_id comment now = Ok out)
      <-> exists r, db_get_exeat db exeat_id = Some r
                    /\ ExeatRequest.status_id r = PENDING).
Proof.
  destruct (db_get_exeat db exeat_id) as [r|] eqn:Hget.
  - destruct (ExeatRequest.status_id r) eqn:Hs.
    + destruct (review_pending db staff exeat_id comment now r Hget Hs) as [-> ->].
      simpl. repeat split; eauto.
    + assert (Hn : ExeatRequest.status_id r <> PENDING) by congruence.
      destruct (review_not_pending db staff exeat_id comment now r Hget Hn) as [-> ->].
      split; [reflexivity|]. split.
      * intros [out H]. discriminate.
      * intros [r0 [H0 H1]]. congruence.
    + assert (Hn : ExeatRequest.status_id r <> PENDING) by congruence.
      destruct (review_not_pending db staff exeat_id comment now r Hget Hn) as [-> ->].
      split; [reflexivity|]. split.
      * intros [out H]. discriminate.
      * intros [r0 [H0 H1]]. congruence.
  - destruct (review_missing db staff exeat_id comment now Hget) as [-> ->].
    split; [reflexivity|]. split.
    + intros [out H]. discriminate.
    + intros [r0 [H0 _]]. discriminate.
Qed.

(** ** Sorting, windows and WHERE clauses *)

Lemma insert_by_perm {A : Type} (le : A -> A -> bool) (x : A) (l : list A) :
  Permutation (insert_by le x l) (x :: l).
Proof.
  induction l as [|y l IH]; simpl; [reflexivity|].
  destruct (le x y); [reflexivity|].
  rewrite IH. apply perm_swap.
Qed.

Lemma sort_by_perm {A : Type} (le : A -> A -> bool) (l : list A) :
  Permutation (sort_by le l) l.
Proof.
  induction l as [|x l IH]; simpl; [reflexivity|].
  unfold sort_by in *. simpl. rewrite insert_by_perm. now constructor.
Qed.

Lemma sort_by_In {A : Type} (le : A -> A -> bool) (l : list A) (x : A) :
  In x (sort_by le l) <-> In x l.
Proof.
  split; apply Permutation_in; [|symmetry]; apply sort_by_perm.
Qed.

Lemma sort_by_length {A : Type} (le : A -> A -> bool) (l : list A) :
  List.length (sort_by le l) = List.length l.
Proof. apply Permutation_length, sort_by_perm. Qed.

Lemma offset_limit_In {A : Type} (start size : Z) (rows : list A) (x : A) :
  In x (offset_limit start size rows) -> In x rows.
Proof.
  unfold offset_limit. intros H.
  rewrite <- (firstn_skipn (Z.to_nat start) rows). apply in_or_app. right.
  rewrite <- (firstn_skipn (Z.to_nat size) (skipn (Z.to_nat start) rows)).
  apply in_or_app. now left.
Qed.

Lemma offset_limit_length {A : Type} (start size : Z) (rows : list A) :
  0 <= size -> Z.of_nat (List.length (offset_limit start size rows)) <= size.
Proof.
  intros Hs. unfold offset_limit.
  pose proof (firstn_le_length (Z.to_nat size) (skipn (Z.to_nat start) rows)).
  lia.
Qed.

Lemma window_covers {A : Type} (rows : list A) (i k n : nat) (x : A) :
  nth_error rows i = Some x -> (k <= i < k + n)%nat ->
  In x (firstn n (skipn k rows)).
Proof.
  intros Hnth Hi. apply (nth_error_In _ (i - k)).
  rewrite nth_error_firstn.
  replace (i - k <? n)%nat with true by (symmetry; apply Nat.ltb_lt; lia).
  rewrite nth_error_skipn. now replace (k + (i - k))%nat with i by lia.
Qed.

(** Every row of a list lies on one of its pages. *)
Lemma some_page_covers {A : Type} (rows : list A) (page_size : Z) (x : A) :
  1 <= page_size -> In x rows ->
  exists page,
    1 <= page <= (Z.of_nat (List.length rows) + page_size - 1) / page_size
    /\ In x (offset_limit ((page - 1) * page_size) page_size rows).
Proof.
  intros Hps Hin. apply In_nth_error in Hin. destruct Hin as [i Hi].
  assert (Hlt : (i < List.length rows)%nat)
    by (apply nth_error_Some; congruence).
  set (q := Z.of_nat i / page_size).
  assert (Hq : 0 <= q) by (apply Z.div_pos; lia).
  pose proof (Z.div_mod (Z.of_nat i) page_size ltac:(lia)) as Hdm.
  pose proof (Z.mod_pos_bound (Z.of_nat i) page_size ltac:(lia)) as Hmod.
  fold q in Hdm.
  exists (q + 1). split.
  - split; [lia|].
    replace (Z.of_nat (List.length rows) + page_size - 1)
      with ((Z.of_nat (List.length rows) - 1) + 1 * page_size) by lia.
    rewrite Z.div_add by lia.
    assert (q <= (Z.of_nat (List.length rows) - 1) / page_size)
      by (apply Z.div_le_mono; lia).
    lia.
  - unfold offset_limit. apply (window_covers rows i); [assumption|].
    replace (q + 1 - 1) with q by lia.
    assert (0 <= q * page_size) by nia.
    assert (Hk : Z.of_nat (Z.to_nat (q * page_size)) = q * page_size)
      by (apply Z2Nat.id; lia).
    assert (Hn : Z.of_nat (Z.to_nat page_size) = page_size)
      by (apply Z2Nat.id; lia).
    split; apply Nat2Z.inj_le || apply Nat2Z.inj_lt;
      rewrite ?Nat2Z.inj_add, ?Hk, ?Hn; nia.
Qed.

Lemma passes_where (q : Select) (clause : ExeatRequest.t -> sql_value) r :
  passes (where_ q clause) r = passes q r && sql_holds (clause r).
Proof.
  unfold passes, where_. rewrite forallb_app. simpl. now rewrite andb_true_r.
Qed.

Lemma holds_status s r :
  sql_holds (status_clause s r) = status_eqb (ExeatRequest.status_id r) s.
Proof.
  unfold status_clause, sql_holds, sql_truth, sql_eq, status_eqb. simpl.
  now destruct (status_value (ExeatRequest.status_id r) =? status_value s).
Qed.

Lemma holds_id exeat_id r :
  sql_holds (id_clause exeat_id r) = (ExeatRequest.id r =? exeat_id).
Proof.
  unfold id_clause, sql_holds, sql_truth, sql_eq. simpl.
  now destruct (ExeatRequest.id r =? exeat_id).
Qed.

Lemma holds_staff staff r :
  sql_holds (staff_clause staff r) = true
  <-> ExeatRequest.staff_id r = Some (Staff.id staff)
      \/ ExeatRequest.staff_id r = None.
Proof.
  unfold staff_clause, sql_holds, or_, sql_truth, sql_eq, sql_is_null.
  destruct (ExeatRequest.staff_id r) as [z|]; simpl.
  - destruct (z =? Staff.id staff) eqn:E; simpl.
    + apply Z.eqb_eq in E. subst. split; auto.
    + apply Z.eqb_neq in E. split; [discriminate|].
      intros [H|H]; [congruence | discriminate].
  - split; auto.
Qed.

Lemma ordered_rows_In db query status_id sort ascending r :
  In r (ordered_rows db query status_id sort ascending)
  <-> In r (exeat_requests db) /\ passes query r = true
      /\ status_matches status_id r.
Proof.
  unfold ordered_rows. rewrite sort_by_In. unfold exec_all. rewrite filter_In.
  destruct status_id as [s|]; simpl.
  - rewrite passes_where, holds_status, andb_true_iff, status_eqb_eq. tauto.
  - tauto.
Qed.

Lemma paginated_items_In db query page page_size status_id sort ascending r :
  In r (items (paginated_exeats_query db query page page_size status_id sort ascending)) ->
  In r (exeat_requests db) /\ passes query r = true /\ status_matches status_id r.
Proof.
  unfold paginated_exeats_query. simpl. intros H.
  apply offset_limit_In in H. now apply ordered_rows_In in H.
Qed.

Lemma paginated_reaches db query page_size status_id sort ascending r :
  1 <= page_size ->
  In r (exeat_requests db) -> passes query r = true -> status_matches status_id r ->
  exists page, 1 <= page
    /\ In r (items (paginated_exeats_query db query page page_size status_id sort ascending)).
Proof.
  intros Hps Hin Hq Hs.
  assert (Hrow : In r (ordered_rows db query status_id sort ascending))
    by (apply ordered_rows_In; auto).
  destruct (some_page_covers _ page_size r Hps Hrow) as [page [[Hlo Hhi] Hwin]].
  exists page. split; [assumption|].
  unfold paginated_exeats_query. simpl.
  now rewrite Z.min_l by assumption.
Qed.

Lemma filter_absent_id (rows : list ExeatRequest.t) (k : Z) :
  ~ In k (map ExeatRequest.id rows) ->
  filter (fun x => ExeatRequest.id x =? k) rows = [].
Proof.
  induction rows as [|y rows IH]; simpl; intros Hnotin; [reflexivity|].
  destruct (ExeatRequest.id y =? k) eqn:E.
  - apply Z.eqb_eq in E. exfalso. apply Hnotin. now left.
  - apply IH. intros H. apply Hnotin. now right.
Qed.

Lemma filter_unique_id (rows : list ExeatRequest.t) (r : ExeatRequest.t) :
  NoDup (map ExeatRequest.id rows) -> In r rows ->
  filter (fun x => ExeatRequest.id x =? ExeatRequest.id r) rows = [r].
Proof.
  induction rows as [|y rows IH]; simpl; intros Hnd Hin; [easy|].
  inversion Hnd as [|? ? Hnotin Hnd']; subst.
  destruct Hin as [->|Hin].
  - rewrite Z.eqb_refl. f_equal. now apply filter_absent_id.
  - destruct (ExeatRequest.id y =? ExeatRequest.id r) eqn:E.
    + apply Z.eqb_eq in E. exfalso. apply Hnotin. rewrite E.
      now apply in_map.
    + now apply IH.
Qed.

(** ** Pagination *)

Lemma ceil_div_bounds (n page_size : Z) :
  0 <= n -> 1 <= page_size ->
  ((n + page_size - 1) / page_size - 1) * page_size < n
  /\ n <= (n + page_size - 1) / page_size * page_size.
Proof.
  intros Hn Hps.
  pose proof (Z.div_mod (n + page_size - 1) page_size ltac:(lia)) as Hdm.
  pose proof (Z.mod_pos_bound (n + page_size - 1) page_size ltac:(lia)) as Hmod.
  nia.
Qed.

(** C3: with [page >= 1] and [page_size] in 1..100 the engine reports the
    number of matching rows, the least [total_pages] whose pages hold them
    all (their ceiling quotient), the requested page clamped to
    [total_pages], and the window of at most [page_size] rows that starts at
    offset [(current_page - 1) * page_size]; any page at or beyond
    [total_pages] gives the response of page [total_pages].  With no matching
    row it reports 0 pages, page 0 and no items; with 45 rows and pages of 20
    it reports 3 pages, and page 99 gives the response of page 3. *)
Theorem pagination_window
  (db : Session) (query : Select) (page page_size : Z)
  (status_id : option ExeatRequestStatusEnum) (sort : SortKey) (ascending : bool) :
  1 <= page -> 1 <= page_size <= 100 ->
  let rows := ordered_rows db query status_id sort ascending in
  let n := Z.of_nat (List.length rows) in
  let resp :=
    paginated_exeats_query db query page page_size status_id sort ascending in
  total_items resp = n
  /\ page_size_of resp = page_size
  /\ (total_pages resp - 1) * page_size < n <= total_pages resp * page_size
  /\ current_page resp = Z.min page (total_pages resp)
  /\ items resp
     = firstn (Z.to_nat page_size)
         (skipn (Z.to_nat ((current_page resp - 1) * page_size)) rows)
  /\ Z.of_nat (List.length (items resp)) <= page_size
  /\ (total_pages resp <= page ->
      resp = paginated_exeats_query db query (total_pages resp) page_size
                                    status_id sort ascending)
  /\ (n = 0 -> total_pages resp = 0 /\ current_page resp = 0 /\ items resp = [])
  /\ (n = 45 -> page_size = 20 ->
      total_pages resp = 3
      /\ paginated_exeats_query db query 99 20 status_id sort ascending
         = paginated_exeats_query db query 3 20 status_id sort ascending).
Proof.
  intros Hpage Hps rows n resp.
  assert (Hn : 0 <= n) by (unfold n; lia).
  unfold resp, paginated_exeats_query. fold rows. fold n. simpl.
  repeat split.
  - apply ceil_div_bounds; lia.
  - apply ceil_div_bounds; lia.
  - apply offset_limit_length. lia.
  - intros Hle. now rewrite Z.min_r, Z.min_id by assumption.
  - rewrite H. simpl. apply Z.div_small. lia.
  - rewrite H. simpl. rewrite Z.div_small by lia. lia.
  - unfold n in H. destruct rows; [|simpl in H; lia].
    unfold offset_limit. now rewrite skipn_nil, firstn_nil.
  - rewrite H, H0. reflexivity.
  - rewrite H. reflexivity.
Qed.

Lemma pagination_window_witness :
  total_pages (paginated_exeats_query db_two select_ExeatRequest 5 1
                 None leave_start true) = 2
  /\ current_page (paginated_exeats_query db_two select_ExeatRequest 5 1
                     None leave_start true) = 2.
Proof.
  destruct (pagination_window db_two select_ExeatRequest 5 1 None leave_start true
              ltac:(lia) ltac:(lia)) as (_ & _ & Hceil & Hcur & _).
  assert (Htp : total_pages (paginated_exeats_query db_two select_ExeatRequest 5 1
                               None leave_start true) = 2).
  { change (Z.of_nat (List.length (ordered_rows db_two select_ExeatRequest None
                                     leave_start true))) with 2 in Hceil.
    lia. }
  split; [exact Htp|]. rewrite Hcur, Htp. reflexivity.
Defined.

(** ** The [last_updated] sort key *)

(** The ORDER BY expression of [last_updated] is a truth value: it is 1 for
    every row. *)
Lemma last_updated_key_constant (r : ExeatRequest.t) :
  order_key last_updated r = Some 1.
Proof.
  unfold order_key, datetime_operand.
  now destruct (ExeatRequest.staff_review_time r).
Qed.

(** C4, at a concrete input: a request reviewed at 200 and a later one
    filed at 300 and never reviewed get the same [last_updated] sort key, and
    the listing comes out in table order in both directions; ordered by
    review time over filing time, descending, the unreviewed request (300)
    would come first. *)
Theorem last_updated_sort_is_not_coalesce :
  order_key last_updated exeat_reviewed = Some 1
  /\ order_key last_updated exeat_pending = Some 1
  /\ items (paginated_exeats_query db_two select_ExeatRequest 1 20
              None last_updated false)
     = [exeat_reviewed; exeat_pending]
  /\ items (paginated_exeats_query db_two select_ExeatRequest 1 20
              None last_updated true)
     = [exeat_reviewed; exeat_pending].
Proof. repeat split. Qed.

(** ** Security views *)

Lemma exec_all_id db exeat_id :
  exec_all db (where_ select_ExeatRequest (id_clause exeat_id))
  = filter (fun r => ExeatRequest.id r =? exeat_id) (exeat_requests db).
Proof.
  unfold exec_all. apply filter_ext. intros r.
  now rewrite passes_where, holds_id.
Qed.

Lemma one_or_404_ok (res : Result ExeatRequest.t) (r : ExeatRequest.t) :
  one_or_404 res = Ok r -> res = Ok r.
Proof. destruct res as [a|[]]; simpl; congruence. Qed.

(** C2 as stated fails: the security fetch of the pending request 2 returns
    it instead of answering 404. *)
Lemma security_fetch_returns_pending :
  security_get_exeat db_pending 2 guard_g = Ok exeat_pending
  /\ ExeatRequest.status_id exeat_pending = PENDING
  /\ ~ (forall db exeat_id op r,
          security_get_exeat db exeat_id op = Ok r ->
          ExeatRequest.status_id r = APPROVED).
Proof.
  repeat split. intros H.
  specialize (H db_pending 2 guard_g exeat_pending eq_refl). discriminate.
Qed.

(** C2, amended: every request on a page of the security listing is a stored
    request whose status is approved.  The security fetch by id filters on
    the id alone: what it returns is a stored request with that id, of any
    status (a stored request whose id no other row shares is returned as it
    is), and it answers 404 exactly when no stored request has the id. *)
Theorem security_listing_approved_fetch_by_id
  (db : Session) (op : SecurityOperative.t) (page page_size : Z)
  (sort : SortKey) (ascending : bool) (exeat_id : Z) :
  (forall r,
      In r (items (security_get_exeats db op page page_size sort ascending)) ->
      In r (exeat_requests db) /\ ExeatRequest.status_id r = APPROVED)
  /\ (forall r,
      security_get_exeat db exeat_id op = Ok r ->
      In r (exeat_requests db) /\ ExeatRequest.id r = exeat_id)
  /\ (forall r,
      In r (exeat_requests db) ->
      NoDup (map ExeatRequest.id (exeat_requests db)) ->
      security_get_exeat db (ExeatRequest.id r) op = Ok r)
  /\ (security_get_exeat db exeat_id op = Raise error_exeat_request_not_found
      <-> forall r, In r (exeat_requests db) -> ExeatRequest.id r <> exeat_id).
Proof.
  repeat split.
  - now apply paginated_items_In in H.
  - apply paginated_items_In in H. simpl in H. tauto.
  - unfold security_get_exeat in H. apply one_or_404_ok in H.
    unfold exec_one in H. rewrite exec_all_id in H.
    destruct (filter _ _) as [|x [|y l]] eqn:E; try discriminate.
    injection H as ->.
    assert (Hin : In r (filter (fun r0 => ExeatRequest.id r0 =? exeat_id)
                          (exeat_requests db))) by (rewrite E; now left).
    now apply filter_In in Hin.
  - unfold security_get_exeat in H. apply one_or_404_ok in H.
    unfold exec_one in H. rewrite exec_all_id in H.
    destruct (filter _ _) as [|x [|y l]] eqn:E; try discriminate.
    injection H as ->.
    assert (Hin : In r (filter (fun r0 => ExeatRequest.id r0 =? exeat_id)
                          (exeat_requests db))) by (rewrite E; now left).
    apply filter_In in Hin. lia.
  - intros r Hin Hnd. unfold security_get_exeat, exec_one.
    rewrite exec_all_id, (filter_unique_id _ r Hnd Hin). reflexivity.
  - unfold security_get_exeat, exec_one. rewrite exec_all_id.
    intros H r Hin Hid.
    assert (Hf : In r (filter (fun r0 => ExeatRequest.id r0 =? exeat_id)
                         (exeat_requests db)))
      by (apply filter_In; split; [assumption | lia]).
    destruct (filter _ _) as [|x [|y l]]; simpl in *; try discriminate.
    contradiction.
  - unfold security_get_exeat, exec_one. rewrite exec_all_id.
    intros H.
    destruct (filter _ _) as [|x l] eqn:E; [reflexivity|].
    assert (Hin : In x (filter (fun r0 => ExeatRequest.id r0 =? exeat_id)
                          (exeat_requests db))) by (rewrite E; now left).
    apply filter_In in Hin. destruct Hin as [Hin Hid].
    exfalso. apply (H x Hin). lia.
Qed.

(** ** Staff listing *)

Lemma passes_staff staff r :
  passes (where_ select_ExeatRequest (staff_clause staff)) r = true
  <-> ExeatRequest.staff_id r = Some (Staff.id staff)
      \/ ExeatRequest.staff_id r = None.
Proof. rewrite passes_where. simpl. apply holds_staff. Qed.

Lemma review_result_assigned db staff exeat_id comment now db' r' :
  approve_exeat_request db staff exeat_id comment now = Ok (db', r')
  \/ deny_exeat_request db staff exeat_id comment now = Ok (db', r') ->
  ExeatRequest.id r' = exeat_id
  /\ ExeatRequest.staff_id r' = Some (Staff.id staff)
  /\ db' = merge_exeat db r'.
Proof.
  intros H.
  destruct (db_get_exeat db exeat_id) as [r|] eqn:Hget.
  - destruct (db_get_exeat_id _ _ _ Hget) as [_ Hid].
    destruct (ExeatRequest.status_id r) eqn:Hs.
    + destruct (review_pending db staff exeat_id comment now r Hget Hs) as [Ha Hd].
      rewrite Ha, Hd in H.
      destruct H as [H|H]; injection H as <- <-; simpl; auto.
    + assert (Hn : ExeatRequest.status_id r <> PENDING) by congruence.
      destruct (review_not_pending db staff exeat_id comment now r Hget Hn) as [Ha Hd].
      rewrite Ha, Hd in H. destruct H; discriminate.
    + assert (Hn : ExeatRequest.status_id r <> PENDING) by congruence.
      destruct (review_not_pending db staff exeat_id comment now r Hget Hn) as [Ha Hd].
      rewrite Ha, Hd in H. destruct H; discriminate.
  - destruct (review_missing db staff exeat_id comment now Hget) as [Ha Hd].
    rewrite Ha, Hd in H. destruct H; discriminate.
Qed.

(** C8: for a staff member A and any page size from 1 up, the requests that
    appear on some page of A's listing are exactly the stored requests whose
    [staff_id] is A's id or null and that pass the optional status filter.
    So a pending request nobody has reviewed is on some page of every staff
    member's unfiltered listing, and once staff member B has approved or
    denied request X, no page of the listing of a staff member with another
    id shows a request with X's id. *)
Theorem staff_listing_scope
  (db : Session) (staff : Staff.t) (page_size : Z)
  (_status : option ExeatRequestStatusEnum) (sort : SortKey) (ascending : bool) :
  1 <= page_size ->
  (forall r,
      (exists page, 1 <= page
         /\ In r (items (staff_get_exeats db staff page page_size
                                          _status sort ascending)))
      <-> In r (exeat_requests db)
          /\ (ExeatRequest.staff_id r = Some (Staff.id staff)
              \/ ExeatRequest.staff_id r = None)
          /\ status_matches _status r)
  /\ (forall r,
      In r (exeat_requests db) ->
      ExeatRequest.status_id r = PENDING ->
      ExeatRequest.staff_id r = None ->
      exists page, 1 <= page
        /\ In r (items (staff_get_exeats db staff page page_size
                                         None sort ascending)))
  /\ (forall other exeat_id comment now db' r' page x,
      approve_exeat_request db other exeat_id comment now = Ok (db', r')
      \/ deny_exeat_request db other exeat_id comment now = Ok (db', r') ->
      Staff.id staff <> Staff.id other ->
      In x (items (staff_get_exeats db' staff page page_size
                                    _status sort ascending)) ->
      ExeatRequest.id x <> exeat_id).
Proof.
  intros Hps. split; [|split].
  - intros r. unfold staff_get_exeats. split.
    + intros [page [_ Hin]]. apply paginated_items_In in Hin.
      rewrite passes_staff in Hin. exact Hin.
    + intros (Hin & Hvis & Hst).
      apply paginated_reaches; auto. now apply passes_staff.
  - intros r Hin _ Hnull. unfold staff_get_exeats.
    apply paginated_reaches; simpl; auto. apply passes_staff. now right.
  - intros other exeat_id comment now db' r' page x Hrev Hneq Hin Hid.
    apply review_result_assigned in Hrev. destruct Hrev as (Hid' & Hby & ->).
    unfold staff_get_exeats in Hin. apply paginated_items_In in Hin.
    destruct Hin as (Hin & Hpass & _).
    apply passes_staff in Hpass.
    assert (x = r') by (apply (merge_exeat_rows db r' x Hin); congruence).
    subst x. rewrite Hby in Hpass.
    destruct Hpass as [H|H]; [injection H as H; congruence | discriminate].
Qed.

Lemma staff_listing_scope_witness :
  (exists page, 1 <= page
     /\ In exeat_pending
           (items (staff_get_exeats db_two staff_b page 20 None last_updated false)))
  /\ (forall page x,
        In x (items (staff_get_exeats
                       (merge_exeat db_two
                          (reviewed exeat_pending APPROVED staff_a None 400))
                       staff_b page 20 None last_updated false)) ->
        ExeatRequest.id x <> 2).
Proof.
  destruct (staff_listing_scope db_two staff_b 20 None last_updated false
              ltac:(lia)) as (_ & Hpending & Hafter).
  split.
  - apply Hpending; [simpl; auto | reflexivity | reflexivity].
  - intros page x.
    apply (Hafter staff_a 2 None 400 _
             (reviewed exeat_pending APPROVED staff_a None 400) page x).
    + left. reflexivity.
    + discriminate.
Defined.

(** ** The revocation ledger *)



(** With at most one expired row the sweep removes the expired rows and
    keeps the others. *)
Lemma sweep_at_most_one db now :
  (List.length (filter (expired_row now) (revoked_tokens db)) <= 1)%nat ->
  exists db',
    cleanup_expired_revoked_tokens db now = Ok db'
    /\ forall row, In row (revoked_tokens db')
                   <-> In row (revoked_tokens db) /\ expired_row now row = false.
Proof.
  intros Hlen. unfold cleanup_expired_revoked_tokens.
  destruct (filter (expired_row now) (revoked_tokens db)) as [|x [|y l]] eqn:E;
    simpl in *; try lia.
  - exists db. split; [reflexivity|]. intros row. split.
    + intros Hin. split; [assumption|].
      destruct (expired_row now row) eqn:Hexp; [|reflexivity].
      assert (In row (filter (expired_row now) (revoked_tokens db)))
        by (apply filter_In; auto).
      rewrite E in H. contradiction.
    + tauto.
  - eexists. split; [reflexivity|]. intros row. simpl.
    rewrite filter_In, negb_true_iff. tauto.
Qed.

(** C6, at a concrete input: with two expired rows in the ledger one run of
    the sweep deletes nothing; its [one_or_none] probe raises
    [MultipleResultsFound] before the bulk delete. *)
Theorem sweep_raises_on_two_expired_rows :
  forallb (expired_row 10) (revoked_tokens db_two_expired) = true
  /\ cleanup_expired_revoked_tokens db_two_expired 10 = Raise MultipleResultsFound.
Proof. split; reflexivity. Qed.

(** ** Identity resolution *)





Lemma get_current_user_ext hs256 db db' token now :
  users db' = users db ->
  is_jwt_revoked db' token = is_jwt_revoked db token ->
  get_current_user hs256 db' token now = get_current_user hs256 db token now.
Proof.
  intros Hu Hr. unfold get_current_user, first_user_by_email.
  now rewrite Hu, Hr.
Qed.

Section AuthFacts.

Variable hs256 : Claims -> string.
Variable hashpw : string -> string -> string.
Variable checkpw : string -> string -> bool.
Variable email_valid : string -> bool.

Lemma decoded_token_payload now token claims :
  decoded_token hs256 now token = Ok claims ->
  claims = jwt_payload token /\ now < claim_exp claims.
Proof.
  unfold decoded_token.
  destruct (String.eqb _ _ && (now <? claim_exp (jwt_payload token)) && _) eqn:E;
    [|discriminate].
  intros H. injection H as <-. apply andb_true_iff in E. destruct E as [E _].
  apply andb_true_iff in E.
  split; [reflexivity | lia].
Qed.

(** A token whose expiry has passed is rejected, whatever the ledger
    holds. *)
Lemma expired_token_rejected db token now :
  claim_exp (jwt_payload token) <= now ->
  get_current_user hs256 db token now = Raise error_invalid_credentials.
Proof.
  intros H. unfold get_current_user, decoded_token.
  replace (now <? claim_exp (jwt_payload token)) with false
    by (symmetry; apply Z.ltb_ge; lia).
  now rewrite andb_false_r.
Qed.



End AuthFacts.



(** ** Signup, then login *)

Lemma existsb_false_iff {A : Type} (f : A -> bool) (l : list A) :
  existsb f l = false <-> forall y, In y l -> f y = false.
Proof.
  induction l as [|x l IH]; simpl; [tauto|].
  rewrite orb_false_iff, IH. split.
  - intros [Hx Hl] y [<-|Hy]; auto.
  - intros H. split; [apply H; now left | intros y Hy; apply H; now right].
Qed.

(** Resolution of a token freshly made for a subject, read while it lives
    and while the ledger does not hold its signature. *)
Lemma fresh_token_resolution hs256 db sub issued later :
  issued <= later < issued + ACCESS_TOKEN_EXPIRE_MINUTES * 60 ->
  is_jwt_revoked db (create_access_token hs256 sub None issued) = false ->
  get_current_user hs256 db (create_access_token hs256 sub None issued) later
  = match first_user_by_email db sub with
    | None => Raise error_invalid_credentials
    | Some user =>
        if User.time_joined user >? issued
        then Raise error_invalid_credentials
        else Ok user
    end.
Proof.
  intros Hlive Hnot. unfold get_current_user.
  assert (Hdec : decoded_token hs256 later
                   (create_access_token hs256 sub None issued)
                 = Ok (mkClaims (Some sub) (Some issued)
                                (issued + ACCESS_TOKEN_EXPIRE_MINUTES * 60))).
  { unfold decoded_token, create_access_token, encode.
    cbn [jwt_signature jwt_payload claim_exp claim_iat].
    rewrite String.eqb_refl.
    replace (later <? issued + ACCESS_TOKEN_EXPIRE_MINUTES * 60) with true
      by (symmetry; apply Z.ltb_lt; lia).
    replace (issued <=? later) with true by (symmetry; apply Z.leb_le; lia).
    reflexivity. }
  rewrite Hdec. cbn [bind]. rewrite Hnot. reflexivity.
Qed.

Section SignupFacts.

Variable hs256 : Claims -> string.
Variable hashpw : string -> string -> string.
Variable checkpw : string -> string -> bool.
Variable email_valid : string -> bool.

Lemma signup_succeeds db d salt joined_at issued_at :
  validate_based_on_user_type d = true ->
  uc_user_type d <> ADMIN ->
  (forall u, In u (users db) -> User.email u <> uc_email d) ->
  exists db' resp,
    signup hs256 hashpw d db salt joined_at issued_at = (db', Ok resp)
    /\ users db' = users db ++ [created_user hashpw db d salt joined_at]
    /\ revoked_tokens db' = revoked_tokens db
    /\ ur_email (signup_user resp) = uc_email d.
Proof.
  intros Hvalid Hadmin Hfresh. unfold signup.
  assert (Hex : existsb (fun u => String.eqb (User.email u) (uc_email d))
                  (users db) = false).
  { apply existsb_false_iff. intros u Hin. apply String.eqb_neq.
    now apply Hfresh. }
  rewrite Hex. unfold validate_based_on_user_type in Hvalid.
  destruct (uc_user_type d) eqn:Htype; [congruence| | |].
  - destruct (uc_matriculation_number d), (uc_course_of_study d),
      (uc_guardian_name d), (uc_guardian_phone_number d),
      (uc_guardian_relationship d); try discriminate.
    do 2 eexists. split; [reflexivity|]. simpl.
    unfold created_user. rewrite Htype. auto.
  - destruct (uc_staff_id d), (uc_designation d); try discriminate.
    do 2 eexists. split; [reflexivity|]. simpl.
    unfold created_user. rewrite Htype. auto.
  - destruct (uc_security_id d), (uc_designation d); try discriminate.
    do 2 eexists. split; [reflexivity|]. simpl.
    unfold created_user. rewrite Htype. auto.
Qed.

(** C7: a signup payload that passes its validation (required profile
    fields set, a user type that has a profile, a valid e-mail no stored
    user has) is accepted, and a login with the same e-mail and password on
    the store that signup left succeeds; the token it yields resolves,
    while unexpired, to the user row that signup inserted.  Assumed: bcrypt
    verifies the hash it made of this password, the login is not earlier
    than the insert, and the ledger does not already hold the signature of
    the token that the login issues. *)
Theorem signup_login_resolves
  (db : Session) (d : UserCreate) (salt : string)
  (joined_at issued_at login_at resolve_at : Z) :
  validate_based_on_user_type d = true ->
  uc_user_type d <> ADMIN ->
  email_valid (uc_email d) = true ->
  (forall u, In u (users db) -> User.email u <> uc_email d) ->
  checkpw (uc_password d) (hashpw (uc_password d) salt) = true ->
  joined_at <= login_at ->
  login_at <= resolve_at < login_at + ACCESS_TOKEN_EXPIRE_MINUTES * 60 ->
  is_jwt_revoked db (create_access_token hs256 (uc_email d) None login_at)
    = false ->
  exists db' resp tok,
    signup hs256 hashpw d db salt joined_at issued_at = (db', Ok resp)
    /\ users db' = users db ++ [created_user hashpw db d salt joined_at]
    /\ login hs256 checkpw email_valid
             (mkForm (uc_email d) (uc_password d)) db' login_at = Ok tok
    /\ get_current_user hs256 db' (access_token tok) resolve_at
       = Ok (created_user hashpw db d salt joined_at).
Proof.
  intros Hvalid Hadmin Hemail Hfresh Hpw Hjoin Hres Hledger.
  destruct (signup_succeeds db d salt joined_at issued_at Hvalid Hadmin Hfresh)
    as (db' & resp & Hsignup & Husers & Hrevoked & _).
  set (user := created_user hashpw db d salt joined_at) in *.
  assert (Hfind : first_user_by_email db' (uc_email d) = Some user).
  { unfold first_user_by_email. rewrite Husers. apply find_app_last.
    - intros u Hin. apply String.eqb_neq. now apply Hfresh.
    - apply String.eqb_refl. }
  exists db', resp,
    (token_response (create_access_token hs256 (uc_email d) None login_at)).
  split; [exact Hsignup|]. split; [exact Husers|]. split.
  - unfold login, authenticate_user. simpl.
    rewrite Hemail, Hfind. simpl. unfold user at 1. simpl. rewrite Hpw.
    reflexivity.
  - assert (Hnot : is_jwt_revoked db'
              (create_access_token hs256 (uc_email d) None login_at) = false).
    { unfold is_jwt_revoked, db_get_revoked in *. now rewrite Hrevoked. }
    cbn [access_token token_response].
    rewrite (fresh_token_resolution hs256 db' _ login_at resolve_at Hres Hnot).
    rewrite Hfind.
    replace (User.time_joined user >? login_at) with false; [reflexivity|].
    symmetry. unfold user. simpl. lia.
Qed.

End SignupFacts.

Lemma signup_login_resolves_witness :
  exists db' resp tok,
    signup sample_hs256 sample_hashpw ada_signup empty_db "salt" 100 100
      = (db', Ok resp)
    /\ users db' = [ada]
    /\ login sample_hs256 sample_checkpw sample_email_valid
             (mkForm "ada@example.edu" "s3cret") db' 120 = Ok tok
    /\ get_current_user sample_hs256 db' (access_token tok) 500 = Ok ada.
Proof.
  apply (signup_login_resolves sample_hs256 sample_hashpw sample_checkpw
           sample_email_valid empty_db ada_signup "salt" 100 100 120 500).
  - reflexivity.
  - discriminate.
  - reflexivity.
  - intros u [].
  - reflexivity.
  - lia.
  - unfold ACCESS_TOKEN_EXPIRE_MINUTES. lia.
  - reflexivity.
Defined.

(** ** The lifecycle of a request *)

Lemma approve_ok_shape db staff exeat_id comment now db' r' :
  approve_exeat_request db staff exeat_id comment now = Ok (db', r') ->
  exists r,
    db_get_exeat db exeat_id = Some r
    /\ ExeatRequest.status_id r = PENDING
    /\ r' = reviewed r APPROVED staff comment now
    /\ db' = merge_exeat db r'.
Proof.
  intros H. destruct (db_get_exeat db exeat_id) as [r|] eqn:Hget.
  - destruct (ExeatRequest.status_id r) eqn:Hs.
    + destruct (review_pending db staff exeat_id comment now r Hget Hs) as [Ha _].
      rewrite Ha in H. injection H as <- <-. exists r. auto.
    + assert (Hn : ExeatRequest.status_id r <> PENDING) by congruence.
      destruct (review_not_pending db staff exeat_id comment now r Hget Hn) as [Ha _].
      rewrite Ha in H. discriminate.
    + assert (Hn : ExeatRequest.status_id r <> PENDING) by congruence.
      destruct (review_not_pending db staff exeat_id comment now r Hget Hn) as [Ha _].
      rewrite Ha in H. discriminate.
  - destruct (review_missing db staff exeat_id comment now Hget) as [Ha _].
    rewrite Ha in H. discriminate.
Qed.

Lemma deny_ok_shape db staff exeat_id comment now db' r' :
  deny_exeat_request db staff exeat_id comment now = Ok (db', r') ->
  exists r,
    db_get_exeat db exeat_id = Some r
    /\ ExeatRequest.status_id r = PENDING
    /\ r' = reviewed r DENIED staff comment now
    /\ db' = merge_exeat db r'.
Proof.
  intros H. destruct (db_get_exeat db exeat_id) as [r|] eqn:Hget.
  - destruct (ExeatRequest.status_id r) eqn:Hs.
    + destruct (review_pending db staff exeat_id comment now r Hget Hs) as [_ Hd].
      rewrite Hd in H. injection H as <- <-. exists r. auto.
    + assert (Hn : ExeatRequest.status_id r <> PENDING) by congruence.
      destruct (review_not_pending db staff exeat_id comment now r Hget Hn) as [_ Hd].
      rewrite Hd in H. discriminate.
    + assert (Hn : ExeatRequest.status_id r <> PENDING) by congruence.
      destruct (review_not_pending db staff exeat_id comment now r Hget Hn) as [_ Hd].
      rewrite Hd in H. discriminate.
  - destruct (review_missing db staff exeat_id comment now Hget) as [_ Hd].
    rewrite Hd in H. discriminate.
Qed.

(** Either decision, seen as one transition. *)
Lemma review_ok_shape db staff exeat_id comment now db' r' :
  approve_exeat_request db staff exeat_id comment now = Ok (db', r')
  \/ deny_exeat_request db staff exeat_id comment now = Ok (db', r') ->
  exists r decision,
    db_get_exeat db exeat_id = Some r
    /\ ExeatRequest.status_id r = PENDING
    /\ decision <> PENDING
    /\ r' = reviewed r decision staff comment now
    /\ db' = merge_exeat db r'.
Proof.
  intros [H|H].
  - apply approve_ok_shape in H. destruct H as (r & ? & ? & ? & ?).
    exists r, APPROVED. repeat split; auto. discriminate.
  - apply deny_ok_shape in H. destruct H as (r & ? & ? & ? & ?).
    exists r, DENIED. repeat split; auto. discriminate.
Qed.

Lemma find_merge_exeat db row r :
  db_get_exeat db (ExeatRequest.id row) = Some r ->
  db_get_exeat (merge_exeat db row) (ExeatRequest.id row) = Some row.
Proof.
  unfold db_get_exeat, merge_exeat. simpl.
  induction (exeat_requests db) as [|y l IH]; simpl; [discriminate|].
  destruct (ExeatRequest.id y =? ExeatRequest.id row) eqn:E.
  - now rewrite Z.eqb_refl.
  - rewrite E. exact IH.
Qed.

Lemma merge_exeat_ids db row :
  map ExeatRequest.id (exeat_requests (merge_exeat db row))
  = map ExeatRequest.id (exeat_requests db).
Proof.
  unfold merge_exeat. simpl. rewrite map_map. apply map_ext. intros y.
  destruct (ExeatRequest.id y =? ExeatRequest.id row) eqn:E; [|reflexivity].
  apply Z.eqb_eq in E. now symmetry.
Qed.

Lemma merge_exeat_In db row r :
  db_get_exeat db (ExeatRequest.id row) = Some r ->
  In row (exeat_requests (merge_exeat db row)).
Proof.
  intros H. apply db_get_exeat_id in H. destruct H as [Hin Hid].
  unfold merge_exeat. simpl. apply in_map_iff. exists r.
  split; [|assumption]. now rewrite Hid, Z.eqb_refl.
Qed.

Lemma merge_exeat_others db row x :
  ExeatRequest.id x <> ExeatRequest.id row ->
  (In x (exeat_requests (merge_exeat db row)) <-> In x (exeat_requests db)).
Proof.
  intros Hneq. unfold merge_exeat. simpl. rewrite in_map_iff. split.
  - intros [y [Hy Hin]].
    destruct (ExeatRequest.id y =? ExeatRequest.id row); subst; [congruence|assumption].
  - intros Hin. exists x. split; [|assumption].
    apply Z.eqb_neq in Hneq. now rewrite Hneq.
Qed.

Lemma reviewed_id r decision staff comment now :
  ExeatRequest.id (reviewed r decision staff comment now) = ExeatRequest.id r.
Proof. reflexivity. Qed.

(** X1: a decision is final.  Once an approve or a deny of a request has
    succeeded, every later approve or deny of the same id, by any staff
    member, is refused with 400 "Request is not pending". *)
Theorem review_is_final
  (db : Session) (staff : Staff.t) (exeat_id : Z) (comment : option string)
  (now : Z) (db' : Session) (r' : ExeatRequest.t) :
  approve_exeat_request db staff exeat_id comment now = Ok (db', r')
  \/ deny_exeat_request db staff exeat_id comment now = Ok (db', r') ->
  forall (staff2 : Staff.t) (comment2 : option string) (later : Z),
    approve_exeat_request db' staff2 exeat_id comment2 later
      = Raise (HTTPException HTTP_400_BAD_REQUEST "Request is not pending")
    /\ deny_exeat_request db' staff2 exeat_id comment2 later
      = Raise (HTTPException HTTP_400_BAD_REQUEST "Request is not pending").
Proof.
  intros H staff2 comment2 later.
  apply review_ok_shape in H.
  destruct H as (r & decision & Hget & Hs & Hdec & -> & ->).
  destruct (db_get_exeat_id _ _ _ Hget) as [_ Hid].
  apply (review_not_pending _ staff2 exeat_id comment2 later
           (reviewed r decision staff comment now)).
  - rewrite <- Hid.
    rewrite <- (reviewed_id r decision staff comment now).
    apply (find_merge_exeat db _ r). now rewrite reviewed_id, Hid.
  - exact Hdec.
Qed.

Lemma review_is_final_witness :
  deny_exeat_request
    (merge_exeat db_two (reviewed exeat_pending APPROVED staff_a None 400))
    staff_b 2 (Some "Too late") 500
  = Raise (HTTPException HTTP_400_BAD_REQUEST "Request is not pending").
Proof.
  apply (review_is_final db_two staff_a 2 None 400 _
           (reviewed exeat_pending APPROVED staff_a None 400)
           (or_introl eq_refl) staff_b (Some "Too late") 500).
Defined.

(** X2: a decision changes one request and nothing else.  The table keeps
    its keys in their order, every row with another id is kept as it is, the
    other tables are untouched, and the decided row keeps its owner, leave
    window, filing time and reason. *)
Theorem review_changes_only_its_request
  (db : Session) (staff : Staff.t) (exeat_id : Z) (comment : option string)
  (now : Z) (db' : Session) (r' : ExeatRequest.t) :
  approve_exeat_request db staff exeat_id comment now = Ok (db', r')
  \/ deny_exeat_request db staff exeat_id comment now = Ok (db', r') ->
  map ExeatRequest.id (exeat_requests db') = map ExeatRequest.id (exeat_requests db)
  /\ (forall x, ExeatRequest.id x <> exeat_id ->
        (In x (exeat_requests db') <-> In x (exeat_requests db)))
  /\ users db' = users db /\ students db' = students db
  /\ staffs db' = staffs db /\ security_operatives db' = security_operatives db
  /\ guardians db' = guardians db /\ revoked_tokens db' = revoked_tokens db
  /\ exists r,
       db_get_exeat db exeat_id = Some r
       /\ ExeatRequest.id r' = ExeatRequest.id r
       /\ ExeatRequest.student_id r' = ExeatRequest.student_id r
       /\ ExeatRequest.leave_start r' = ExeatRequest.leave_start r
       /\ ExeatRequest.leave_end r' = ExeatRequest.leave_end r
       /\ ExeatRequest.submission_time r' = ExeatRequest.submission_time r
       /\ ExeatRequest.reason r' = ExeatRequest.reason r.
Proof.
  intros H. apply review_ok_shape in H.
  destruct H as (r & decision & Hget & Hs & Hdec & -> & ->).
  destruct (db_get_exeat_id _ _ _ Hget) as [_ Hid].
  split; [apply merge_exeat_ids|].
  split.
  { intros x Hx. apply merge_exeat_others. rewrite reviewed_id. congruence. }
  repeat (split; [reflexivity|]).
  exists r. repeat split; auto.
Qed.

Lemma review_changes_only_its_request_witness :
  In exeat_reviewed
     (exeat_requests
        (merge_exeat db_two (reviewed exeat_pending DENIED staff_b None 400))).
Proof.
  destruct (review_changes_only_its_request db_two staff_b 2 None 400 _
              (reviewed exeat_pending DENIED staff_b None 400)
              (or_intror eq_refl)) as (_ & Hothers & _).
  apply Hothers; [discriminate | simpl; auto].
Defined.

Lemma NoDup_snoc {A : Type} (l : list A) (x : A) :
  NoDup l -> ~ In x l -> NoDup (l ++ [x]).
Proof.
  intros Hnd Hx.
  apply (Permutation_NoDup (Permutation_cons_append l x)).
  now constructor.
Qed.

Lemma reviewed_consistent r decision staff comment now :
  decision <> PENDING ->
  review_fields_consistent (reviewed r decision staff comment now).
Proof.
  intros Hdec. unfold review_fields_consistent, reviewed. simpl.
  destruct decision; [contradiction| |]; split; discriminate.
Qed.

(** X3: the request table keeps its shape.  Keys unique and review columns
    in agreement with the status (all null while pending; reviewer and review
    time set once decided) hold of the empty store and are preserved by every
    submit and by every successful approve or deny. *)
Theorem exeat_table_invariant :
  exeat_table_ok empty_db
  /\ forall db : Session,
       exeat_table_ok db ->
       (forall create student now db' r,
           submit_exeat_request db create student now = Ok (db', r) ->
           exeat_table_ok db')
       /\ (forall staff exeat_id comment now db' r',
           approve_exeat_request db staff exeat_id comment now = Ok (db', r')
           \/ deny_exeat_request db staff exeat_id comment now = Ok (db', r') ->
           exeat_table_ok db').
Proof.
  split.
  { split; simpl; constructor. }
  intros db [Hnd Hall]. split.
  - intros create student now db' r H.
    unfold submit_exeat_request, add_exeat in H. injection H as <- <-.
    split; simpl.
    + rewrite map_app. simpl. apply NoDup_snoc; [assumption|].
      apply next_id_fresh.
    + apply Forall_app. split; [assumption|].
      constructor; [|constructor].
      unfold review_fields_consistent. simpl. auto.
  - intros staff exeat_id comment now db' r' H.
    apply review_ok_shape in H.
    destruct H as (r & decision & Hget & Hs & Hdec & -> & ->).
    split.
    + now rewrite merge_exeat_ids.
    + apply Forall_forall. intros x Hx.
      unfold merge_exeat in Hx. simpl in Hx. apply in_map_iff in Hx.
      destruct Hx as [y [Hy Hin]].
      destruct (ExeatRequest.id y =? _) in Hy; subst x.
      * now apply reviewed_consistent.
      * rewrite Forall_forall in Hall. now apply Hall.
Qed.

Lemma holds_student student r :
  sql_holds (student_clause student r)
  = (ExeatRequest.student_id r =? Student.id student).
Proof.
  unfold student_clause, sql_holds, sql_truth, sql_eq. simpl.
  now destruct (ExeatRequest.student_id r =? Student.id student).
Qed.

Lemma passes_student student r :
  passes (where_ select_ExeatRequest (student_clause student)) r = true
  <-> ExeatRequest.student_id r = Student.id student.
Proof. rewrite passes_where, holds_student. simpl. apply Z.eqb_eq. Qed.

(** X4: where a new request shows up.  Right after a submit the new request
    is on some page of its owner's listing and of every staff member's
    listing of pending requests, and no page of the security listing shows a
    request with its id. *)
Theorem submitted_request_visibility
  (db : Session) (create : ExeatRequestCreate) (student : Student.t) (now : Z)
  (db' : Session) (r : ExeatRequest.t)
  (page_size : Z) (sort : SortKey) (ascending : bool) :
  1 <= page_size ->
  submit_exeat_request db create student now = Ok (db', r) ->
  (exists page, 1 <= page
     /\ In r (items (student_get_exeats db' student page page_size
                                        None sort ascending)))
  /\ (forall staff, exists page, 1 <= page
        /\ In r (items (staff_get_exeats db' staff page page_size
                                         (Some PENDING) sort ascending)))
  /\ (forall op page x,
        In x (items (security_get_exeats db' op page page_size sort ascending)) ->
        ExeatRequest.id x <> ExeatRequest.id r).
Proof.
  intros Hps H.
  unfold submit_exeat_request, add_exeat in H. injection H as <- <-.
  set (r := ExeatRequest.mk _ _ _ _ _ _ _ _ _ _).
  assert (Hin : In r (exeat_requests
                        (set_exeat_requests db (exeat_requests db ++ [r]))))
    by (simpl; apply in_or_app; right; now left).
  split; [|split].
  - unfold student_get_exeats.
    apply paginated_reaches;
      [assumption | exact Hin | now apply passes_student | exact I].
  - intros staff. unfold staff_get_exeats.
    apply paginated_reaches;
      [assumption | exact Hin | apply passes_staff; now right | reflexivity].
  - intros op page x Hx Hid.
    apply paginated_items_In in Hx. destruct Hx as (Hx & _ & Hst).
    simpl in Hx, Hst. apply in_app_or in Hx. destruct Hx as [Hx|[<-|[]]].
    + apply (next_id_fresh (map ExeatRequest.id (exeat_requests db))).
      change (next_id (map ExeatRequest.id (exeat_requests db)))
        with (ExeatRequest.id r).
      rewrite <- Hid. now apply in_map.
    + discriminate.
Qed.

Lemma submitted_request_visibility_witness :
  exists page, 1 <= page
    /\ In (ExeatRequest.mk 3 7 50 40 600 "Back to front" PENDING None None None)
          (items (staff_get_exeats
                    (set_exeat_requests db_two
                       (exeat_requests db_two
                        ++ [ExeatRequest.mk 3 7 50 40 600 "Back to front"
                                            PENDING None None None]))
                    staff_b page 1 (Some PENDING) leave_end true)).
Proof.
  destruct (submitted_request_visibility db_two
              (mkExeatRequestCreate 50 40 "Back to front") student_s 600 _ _
              1 leave_end true ltac:(lia) eq_refl) as (_ & Hstaff & _).
  apply (Hstaff staff_b).
Defined.

(** X5: what the gate sees of a decision.  An approved request is on some
    page of the security listing from the moment the approve succeeds; after
    a deny no page of the security listing shows a request with that id. *)
Theorem decision_and_security_listing
  (db : Session) (staff : Staff.t) (exeat_id : Z) (comment : option string)
  (now : Z) (db' : Session) (r' : ExeatRequest.t)
  (op : SecurityOperative.t) (page_size : Z) (sort : SortKey) (ascending : bool) :
  1 <= page_size ->
  (approve_exeat_request db staff exeat_id comment now = Ok (db', r') ->
   exists page, 1 <= page
     /\ In r' (items (security_get_exeats db' op page page_size sort ascending)))
  /\ (deny_exeat_request db staff exeat_id comment now = Ok (db', r') ->
      forall page x,
        In x (items (security_get_exeats db' op page page_size sort ascending)) ->
        ExeatRequest.id x <> exeat_id).
Proof.
  intros Hps. split.
  - intros H. apply approve_ok_shape in H.
    destruct H as (r & Hget & Hs & -> & ->).
    destruct (db_get_exeat_id _ _ _ Hget) as [_ Hid].
    unfold security_get_exeats.
    apply paginated_reaches;
      [assumption | | reflexivity | reflexivity].
    apply (merge_exeat_In db _ r). now rewrite reviewed_id, Hid.
  - intros H page x Hx Hidx. apply deny_ok_shape in H.
    destruct H as (r & Hget & Hs & -> & ->).
    destruct (db_get_exeat_id _ _ _ Hget) as [_ Hid].
    apply paginated_items_In in Hx. destruct Hx as (Hx & _ & Hst).
    assert (x = reviewed r DENIED staff comment now).
    { apply (merge_exeat_rows db _ x Hx). rewrite reviewed_id. congruence. }
    subst x. simpl in Hst. discriminate.
Qed.

Lemma decision_and_security_listing_witness :
  exists page, 1 <= page
    /\ In (reviewed exeat_pending APPROVED staff_a (Some "Fine") 400)
          (items (security_get_exeats
                    (merge_exeat db_two
                       (reviewed exeat_pending APPROVED staff_a (Some "Fine") 400))
                    guard_g page 1 leave_start false)).
Proof.
  destruct (decision_and_security_listing db_two staff_a 2 (Some "Fine") 400
              (merge_exeat db_two
                 (reviewed exeat_pending APPROVED staff_a (Some "Fine") 400))
              (reviewed exeat_pending APPROVED staff_a (Some "Fine") 400)
              guard_g 1 leave_start false ltac:(lia)) as [Happrove _].
  apply Happrove. reflexivity.
Defined.

(** ** Fetching one request *)

Lemma exec_all_two db (c1 c2 : ExeatRequest.t -> sql_value) :
  exec_all db (where_ (where_ select_ExeatRequest c1) c2)
  = filter (fun r => sql_holds (c1 r) && sql_holds (c2 r)) (exeat_requests db).
Proof.
  unfold exec_all. apply filter_ext. intros r. now rewrite !passes_where.
Qed.

Lemma filter_and {A : Type} (f g : A -> bool) (l : list A) :
  filter (fun x => f x && g x) l = filter f (filter g l).
Proof.
  induction l as [|x l IH]; simpl; [reflexivity|].
  destruct (g x); simpl.
  - rewrite andb_true_r. now rewrite IH.
  - now rewrite andb_false_r.
Qed.

Lemma filter_nil_iff {A : Type} (f : A -> bool) (l : list A) :
  filter f l = [] <-> forall x, In x l -> f x = false.
Proof.
  induction l as [|y l IH]; simpl; [tauto|].
  destruct (f y) eqn:E; split.
  - discriminate.
  - intros H. specialize (H y (or_introl eq_refl)). congruence.
  - intros H x [<-|Hx]; [assumption|]. now apply IH.
  - intros H. apply IH. intros x Hx. apply H. now right.
Qed.

Lemma student_fetch_rows db student exeat_id :
  exec_all db (where_ (where_ select_ExeatRequest (student_clause student))
                      (id_clause exeat_id))
  = filter (fun r => ExeatRequest.student_id r =? Student.id student)
           (filter (fun r => ExeatRequest.id r =? exeat_id) (exeat_requests db)).
Proof.
  rewrite exec_all_two, <- filter_and. apply filter_ext. intros r.
  now rewrite holds_student, holds_id.
Qed.

(** X6: a student reaches only their own requests.  Every request on a page
    of a student's listing is owned by that student; fetching one by id
    returns it when the student owns it, and answers the same 404 for another
    student's request as for an id that no request has. *)
Theorem student_reaches_only_own_requests (db : Session) (student : Student.t) :
  NoDup (map ExeatRequest.id (exeat_requests db)) ->
  (forall page page_size _status sort ascending r,
      In r (items (student_get_exeats db student page page_size
                                      _status sort ascending)) ->
      In r (exeat_requests db)
      /\ ExeatRequest.student_id r = Student.id student)
  /\ (forall r,
      In r (exeat_requests db) ->
      ExeatRequest.student_id r = Student.id student ->
      student_get_exeat (ExeatRequest.id r) db student = Ok r)
  /\ (forall r,
      In r (exeat_requests db) ->
      ExeatRequest.student_id r <> Student.id student ->
      student_get_exeat (ExeatRequest.id r) db student
        = Raise error_exeat_request_not_found)
  /\ (forall exeat_id,
      (forall r, In r (exeat_requests db) -> ExeatRequest.id r <> exeat_id) ->
      student_get_exeat exeat_id db student
        = Raise error_exeat_request_not_found).
Proof.
  intros Hnd. split; [|split; [|split]].
  - intros page page_size _status sort ascending r Hin.
    unfold student_get_exeats in Hin. apply paginated_items_In in Hin.
    destruct Hin as (Hin & Hpass & _). split; [assumption|].
    now apply passes_student.
  - intros r Hin Hown. unfold student_get_exeat, exec_one.
    rewrite student_fetch_rows, (filter_unique_id _ r Hnd Hin). simpl.
    apply Z.eqb_eq in Hown. now rewrite Hown.
  - intros r Hin Hother. unfold student_get_exeat, exec_one.
    rewrite student_fetch_rows, (filter_unique_id _ r Hnd Hin). simpl.
    apply Z.eqb_neq in Hother. now rewrite Hother.
  - intros exeat_id Hnone. unfold student_get_exeat, exec_one.
    rewrite student_fetch_rows.
    replace (filter (fun r => ExeatRequest.id r =? exeat_id) (exeat_requests db))
      with (@nil ExeatRequest.t); [reflexivity|].
    symmetry. apply filter_nil_iff. intros x Hx.
    apply Z.eqb_neq. now apply Hnone.
Qed.

Lemma student_reaches_only_own_requests_witness :
  student_get_exeat 2 db_two (Student.mk 8 14 "2021/0002" "Law" 1 "Father")
  = Raise error_exeat_request_not_found.
Proof.
  destruct (student_reaches_only_own_requests db_two
              (Student.mk 8 14 "2021/0002" "Law" 1 "Father")) as (_ & _ & H & _).
  - repeat constructor; simpl; intuition discriminate.
  - apply (H exeat_pending); [simpl; auto | discriminate].
Defined.

Lemma staff_fetch_rows db staff exeat_id :
  exec_all db (where_ (where_ select_ExeatRequest (id_clause exeat_id))
                      (staff_clause staff))
  = filter (fun r => sql_holds (staff_clause staff r))
           (filter (fun r => ExeatRequest.id r =? exeat_id) (exeat_requests db)).
Proof.
  rewrite exec_all_two, <- filter_and. apply filter_ext. intros r.
  rewrite holds_id. apply andb_comm.
Qed.

(** X7: the staff fetch by id has the scope of the staff listing.  What it
    returns is a stored request with that id whose [staff_id] is the caller's
    or null; such a request is returned when its id is unique; and once
    another staff member has approved or denied the request, the fetch
    answers 404. *)
Theorem staff_fetch_scope (db : Session) (staff : Staff.t) (exeat_id : Z) :
  (forall r,
      staff_get_exeat db exeat_id staff = Ok r ->
      In r (exeat_requests db) /\ ExeatRequest.id r = exeat_id
      /\ (ExeatRequest.staff_id r = Some (Staff.id staff)
          \/ ExeatRequest.staff_id r = None))
  /\ (forall r,
      NoDup (map ExeatRequest.id (exeat_requests db)) ->
      In r (exeat_requests db) ->
      ExeatRequest.staff_id r = Some (Staff.id staff)
      \/ ExeatRequest.staff_id r = None ->
      staff_get_exeat db (ExeatRequest.id r) staff = Ok r)
  /\ (forall other comment now db' r',
      approve_exeat_request db other exeat_id comment now = Ok (db', r')
      \/ deny_exeat_request db other exeat_id comment now = Ok (db', r') ->
      Staff.id staff <> Staff.id other ->
      staff_get_exeat db' exeat_id staff = Raise error_exeat_request_not_found).
Proof.
  split; [|split].
  - intros r H. unfold staff_get_exeat in H. apply one_or_404_ok in H.
    unfold exec_one in H. rewrite staff_fetch_rows in H.
    destruct (filter _ (filter _ _)) as [|x [|y l]] eqn:E; try discriminate.
    injection H as ->.
    assert (Hin : In r (filter (fun r0 => sql_holds (staff_clause staff r0))
                          (filter (fun r0 => ExeatRequest.id r0 =? exeat_id)
                                  (exeat_requests db))))
      by (rewrite E; now left).
    apply filter_In in Hin. destruct Hin as [Hin Hvis].
    apply filter_In in Hin. destruct Hin as [Hin Hid].
    repeat split; [assumption | lia | now apply holds_staff].
  - intros r Hnd Hin Hvis. unfold staff_get_exeat, exec_one.
    rewrite staff_fetch_rows, (filter_unique_id _ r Hnd Hin). simpl.
    apply holds_staff in Hvis. now rewrite Hvis.
  - intros other comment now db' r' Hrev Hneq.
    apply review_result_assigned in Hrev. destruct Hrev as (Hid & Hby & ->).
    unfold staff_get_exeat, exec_one. rewrite staff_fetch_rows.
    replace (filter (fun r => sql_holds (staff_clause staff r))
               (filter (fun r => ExeatRequest.id r =? exeat_id)
                       (exeat_requests (merge_exeat db r'))))
      with (@nil ExeatRequest.t); [reflexivity|].
    symmetry. apply filter_nil_iff. intros x Hx.
    apply filter_In in Hx. destruct Hx as [Hx Hidx].
    assert (x = r') by (apply (merge_exeat_rows db r' x Hx); lia).
    subst x. destruct (sql_holds (staff_clause staff r')) eqn:Hvis; [|reflexivity].
    apply holds_staff in Hvis. rewrite Hby in Hvis.
    destruct Hvis as [H|H]; [injection H as H; congruence | discriminate].
Qed.

(** ** Pages and order *)

Lemma chunks_concat {A : Type} (size : nat) (k : nat) :
  forall rows : list A,
    (List.length rows <= k * size)%nat ->
    List.concat (map (fun p => firstn size (skipn ((p - 1) * size) rows)) (seq 1 k))
    = rows.
Proof.
  induction k as [|k IH]; intros rows Hlen.
  - destruct rows; [reflexivity | simpl in Hlen; lia].
  - rewrite <- cons_seq, <- seq_shift, map_cons, map_map.
    cbn [List.concat].
    transitivity (firstn size rows ++ skipn size rows); [|apply firstn_skipn].
    f_equal.
    etransitivity; [|apply (IH (skipn size rows))].
    + f_equal. apply map_ext_in. intros p Hp. apply in_seq in Hp.
      rewrite skipn_skipn. do 2 f_equal.
      replace (S p - 1)%nat with (S (p - 1)) by lia. simpl. lia.
    + rewrite length_skipn. simpl in Hlen. lia.
Qed.

(** X8: the pages partition the result.  Put one after the other, the item
    windows of pages 1 to [total_pages] give the filtered and ordered rows,
    each row once and in order: paging skips nothing and repeats nothing. *)
Theorem pages_partition_rows
  (db : Session) (query : Select) (page_size : Z)
  (status_id : option ExeatRequestStatusEnum) (sort : SortKey) (ascending : bool) :
  1 <= page_size ->
  List.concat
    (map (fun page =>
            items (paginated_exeats_query db query page page_size
                                          status_id sort ascending))
         (page_numbers
            (total_pages (paginated_exeats_query db query 1 page_size
                                                 status_id sort ascending))))
  = ordered_rows db query status_id sort ascending.
Proof.
  intros Hps.
  set (rows := ordered_rows db query status_id sort ascending).
  set (n := Z.of_nat (List.length rows)).
  set (tp := (n + page_size - 1) / page_size).
  change (total_pages (paginated_exeats_query db query 1 page_size
                                              status_id sort ascending))
    with tp.
  assert (Hn : 0 <= n) by (unfold n; lia).
  destruct (ceil_div_bounds n page_size Hn Hps) as [Hlo Hhi]. fold tp in Hlo, Hhi.
  assert (Htp : 0 <= tp) by (apply Z.div_pos; lia).
  unfold page_numbers. rewrite map_map.
  etransitivity;
    [|apply (chunks_concat (Z.to_nat page_size) (Z.to_nat tp) rows)].
  - f_equal. apply map_ext_in. intros p Hp. apply in_seq in Hp.
    change (items (paginated_exeats_query db query (Z.of_nat p) page_size
                                          status_id sort ascending))
      with (offset_limit ((Z.min (Z.of_nat p) tp - 1) * page_size)
                         page_size rows).
    unfold offset_limit. rewrite Z.min_l by lia. do 2 f_equal.
    rewrite Z2Nat.inj_mul by lia. f_equal. lia.
  - apply Nat2Z.inj_le. rewrite Nat2Z.inj_mul, !Z2Nat.id by lia. exact Hhi.
Qed.

Lemma pages_partition_rows_witness :
  List.concat
    (map (fun page =>
            items (paginated_exeats_query db_two select_ExeatRequest page 1
                                          None leave_start false))
         (page_numbers
            (total_pages (paginated_exeats_query db_two select_ExeatRequest 1 1
                                                 None leave_start false))))
  = ordered_rows db_two select_ExeatRequest None leave_start false.
Proof.
  apply (pages_partition_rows db_two select_ExeatRequest 1 None leave_start false).
  lia.
Defined.

Lemma insert_by_sorted {A : Type} (le : A -> A -> bool) (x : A) (l : list A) :
  (forall a b, le a b = false -> le b a = true) ->
  Sorted (fun a b => le a b = true) l ->
  Sorted (fun a b => le a b = true) (insert_by le x l).
Proof.
  intros Htotal. induction l as [|y l IH]; simpl; intros Hs.
  - repeat constructor.
  - destruct (le x y) eqn:E.
    + constructor; [assumption | now constructor].
    + apply Sorted_inv in Hs. destruct Hs as [Hs Hhd].
      constructor; [now apply IH|].
      destruct l as [|z l]; simpl.
      * constructor. now apply Htotal.
      * destruct (le x z); constructor; [now apply Htotal|].
        now apply HdRel_inv in Hhd.
Qed.

Lemma sort_by_sorted {A : Type} (le : A -> A -> bool) (l : list A) :
  (forall a b, le a b = false -> le b a = true) ->
  Sorted (fun a b => le a b = true) (sort_by le l).
Proof.
  intros Htotal. induction l as [|x l IH]; [constructor|].
  unfold sort_by in *. simpl. now apply insert_by_sorted.
Qed.

Lemma StronglySorted_window {A : Type} (R : A -> A -> Prop) (k n : nat) :
  forall l, StronglySorted R l -> StronglySorted R (firstn n (skipn k l)).
Proof.
  intros l Hs.
  assert (Hskip : StronglySorted R (skipn k l)).
  { revert l Hs. induction k as [|k IH]; intros l Hs; [assumption|].
    destruct l as [|x l]; [assumption|]. simpl. apply IH.
    now inversion Hs. }
  clear Hs. revert n. induction Hskip as [|x l' Hs IH Hall]; intros n.
  - rewrite firstn_nil. constructor.
  - destruct n as [|n]; simpl; [constructor|].
    constructor; [apply IH|].
    apply Forall_forall. intros y Hy.
    rewrite Forall_forall in Hall. apply Hall.
    rewrite <- (firstn_skipn n l'). apply in_or_app. now left.
Qed.

Lemma ordered_rows_by_key db query status_id sort ascending
  (key : ExeatRequest.t -> Z) :
  (forall r, order_key sort r = Some (key r)) ->
  StronglySorted (in_leave_order key ascending)
                 (ordered_rows db query status_id sort ascending).
Proof.
  intros Hkey. unfold ordered_rows.
  set (rows := exec_all db _).
  set (le := (if ascending then asc else desc) (order_key sort)).
  assert (Hle : forall a b, le a b = true <-> in_leave_order key ascending a b).
  { intros a b. unfold le, in_leave_order, asc, desc.
    destruct ascending; rewrite !Hkey; simpl; apply Z.leb_le. }
  assert (Htotal : forall a b, le a b = false -> le b a = true).
  { intros a b H. apply Hle.
    assert (Hn : ~ in_leave_order key ascending a b)
      by (intros Hc; apply Hle in Hc; congruence).
    unfold in_leave_order in *. destruct ascending; lia. }
  pose proof (sort_by_sorted le rows Htotal) as Hs.
  apply Sorted_StronglySorted in Hs.
  - induction Hs as [|x l Hs IH Hall]; constructor; [assumption|].
    apply Forall_forall. intros y Hy. rewrite Forall_forall in Hall.
    now apply Hle, Hall.
  - intros a b c Hab Hbc. apply Hle in Hab, Hbc. apply Hle.
    unfold in_leave_order in *. destruct ascending; lia.
Qed.

(** X9: sorting by a leave timestamp orders the listing.  With sort key
    [leave_start] (or [leave_end]) every page, and the whole result, is in
    non-decreasing order of that timestamp when ascending and in
    non-increasing order when descending. *)
Theorem leave_sort_orders_listing
  (db : Session) (query : Select) (page page_size : Z)
  (status_id : option ExeatRequestStatusEnum) (ascending : bool) :
  StronglySorted (in_leave_order ExeatRequest.leave_start ascending)
    (ordered_rows db query status_id leave_start ascending)
  /\ StronglySorted (in_leave_order ExeatRequest.leave_start ascending)
       (items (paginated_exeats_query db query page page_size
                                      status_id leave_start ascending))
  /\ StronglySorted (in_leave_order ExeatRequest.leave_end ascending)
       (ordered_rows db query status_id leave_end ascending)
  /\ StronglySorted (in_leave_order ExeatRequest.leave_end ascending)
       (items (paginated_exeats_query db query page page_size
                                      status_id leave_end ascending)).
Proof.
  assert (Hstart := ordered_rows_by_key db query status_id leave_start ascending
                      ExeatRequest.leave_start (fun r => eq_refl)).
  assert (Hend := ordered_rows_by_key db query status_id leave_end ascending
                    ExeatRequest.leave_end (fun r => eq_refl)).
  repeat split; try assumption;
    unfold paginated_exeats_query, offset_limit; simpl;
    now apply StronglySorted_window.
Qed.

(** ** More on the revocation ledger *)

(** X10: what one run of the sweep does.  With two or more expired rows it
    raises [MultipleResultsFound] and deletes nothing; with at most one it
    succeeds, the ledger keeps exactly its unexpired rows, in order, and no
    other table changes.  A row whose expiry equals the sweep time is not
    expired. *)
Theorem sweep_outcomes (db : Session) (now : Z) :
  ((2 <= List.length (filter (expired_row now) (revoked_tokens db)))%nat ->
   cleanup_expired_revoked_tokens db now = Raise MultipleResultsFound)
  /\ ((List.length (filter (expired_row now) (revoked_tokens db)) <= 1)%nat ->
      exists db',
        cleanup_expired_revoked_tokens db now = Ok db'
        /\ revoked_tokens db'
           = filter (fun row => now <=? RevokedToken.exp row) (revoked_tokens db)
        /\ users db' = users db /\ exeat_requests db' = exeat_requests db
        /\ students db' = students db /\ staffs db' = staffs db
        /\ security_operatives db' = security_operatives db
        /\ guardians db' = guardians db).
Proof.
  assert (Hsame : forall l : list RevokedToken.t,
             filter (fun row => negb (expired_row now row)) l
             = filter (fun row => now <=? RevokedToken.exp row) l).
  { intros l. apply filter_ext. intros row. unfold expired_row.
    destruct (RevokedToken.exp row <? now) eqn:E1,
             (now <=? RevokedToken.exp row) eqn:E2; try reflexivity; lia. }
  unfold cleanup_expired_revoked_tokens. split; intros Hlen.
  - destruct (filter (expired_row now) (revoked_tokens db)) as [|x [|y l]];
      simpl in *; try lia. reflexivity.
  - destruct (filter (expired_row now) (revoked_tokens db)) as [|x [|y l]] eqn:E;
      simpl in *; try lia.
    + exists db. repeat split.
      rewrite <- Hsame. symmetry.
      rewrite filter_nil_iff in E.
      induction (revoked_tokens db) as [|row l IH]; simpl; [reflexivity|].
      rewrite (E row (or_introl eq_refl)). simpl. f_equal.
      apply IH. intros x Hx. apply E. now right.
    + eexists. split; [reflexivity|]. simpl. rewrite Hsame. repeat split.
Qed.

Lemma find_filter_keep {A : Type} (f g : A -> bool) (l : list A) :
  (forall x, In x l -> f x = true -> g x = true) ->
  find f (filter g l) = find f l.
Proof.
  induction l as [|x l IH]; simpl; intros H; [reflexivity|].
  destruct (g x) eqn:Eg; simpl.
  - destruct (f x); [reflexivity|]. apply IH. intros y Hy. apply H. now right.
  - destruct (f x) eqn:Ef.
    + rewrite (H x (or_introl eq_refl) Ef) in Eg. discriminate.
    + apply IH. intros y Hy. apply H. now right.
Qed.

(** X11: the sweep cannot be observed through token validation.  If the
    ledger rows that carry a token's signature carry that token's expiry, as
    [logout] writes them, then after a successful sweep identity resolution
    gives, at the sweep time and at any later time, the answer it would have
    given without the sweep. *)
Theorem sweep_invisible_to_validation
  (hs256 : Claims -> string) (db db' : Session) (now later : Z) (token : Jwt) :
  cleanup_expired_revoked_tokens db now = Ok db' ->
  now <= later ->
  (forall row, In row (revoked_tokens db) ->
               RevokedToken.sig row = rsplit_sig token ->
               RevokedToken.exp row = claim_exp (jwt_payload token)) ->
  get_current_user hs256 db' token later = get_current_user hs256 db token later.
Proof.
  intros Hsweep Hlater Hrows.
  destruct (Z.le_gt_cases (claim_exp (jwt_payload token)) later) as [Hexp|Hlive].
  - now rewrite !expired_token_rejected.
  - apply get_current_user_ext.
    + unfold cleanup_expired_revoked_tokens in Hsweep.
      destruct (one_or_none _) as [[x|]|e]; simpl in Hsweep;
        try discriminate; now injection Hsweep as <-.
    + unfold cleanup_expired_revoked_tokens in Hsweep.
      destruct (one_or_none _) as [[x|]|e]; simpl in Hsweep;
        try discriminate; injection Hsweep as <-; [|reflexivity].
      unfold is_jwt_revoked, db_get_revoked. simpl.
      rewrite find_filter_keep; [reflexivity|].
      intros row Hin Hsig. apply String.eqb_eq in Hsig.
      specialize (Hrows row Hin Hsig). unfold expired_row.
      apply negb_true_iff, Z.ltb_ge. lia.
Qed.

Lemma sweep_invisible_to_validation_witness :
  get_current_user sample_hs256
    (set_revoked_tokens db_ada [])
    (create_access_token sample_hs256 "ada@example.edu" None 100) 2000
  = get_current_user sample_hs256
      (set_revoked_tokens db_ada [RevokedToken.mk "ada@example.edu|signed" 1900])
      (create_access_token sample_hs256 "ada@example.edu" None 100) 2000.
Proof.
  apply (sweep_invisible_to_validation sample_hs256
           (set_revoked_tokens db_ada
              [RevokedToken.mk "ada@example.edu|signed" 1900])
           (set_revoked_tokens db_ada []) 1950 2000).
  - reflexivity.
  - lia.
  - intros row [<-|[]] _. reflexivity.
Defined.

Section Upsert.

Variable A : Type.
Variable hit : A -> bool.
Variable row : A.
Hypothesis hit_row : hit row = true.

Lemma find_replace_hits (l : list A) (old : A) :
  find hit l = Some old -> find hit (replace_hits A hit row l) = Some row.
Proof.
  induction l as [|y l IH]; simpl; [discriminate|].
  destruct (hit y) eqn:Ey; simpl.
  - now rewrite hit_row.
  - rewrite Ey. exact IH.
Qed.

Lemma find_other_replace_hits (other : A -> bool) (l : list A) :
  (forall y, hit y = true -> other y = false) ->
  find other (replace_hits A hit row l) = find other l.
Proof.
  intros Hsep. induction l as [|y l IH]; simpl; [reflexivity|].
  destruct (hit y) eqn:Ey.
  - rewrite (Hsep row hit_row), (Hsep y Ey). exact IH.
  - destruct (other y); [reflexivity | exact IH].
Qed.

Lemma find_other_snoc (other : A -> bool) (l : list A) :
  other row = false ->
  match find other (l ++ [row]) with Some _ => true | None => false end
  = match find other l with Some _ => true | None => false end.
Proof.
  intros Hrow. induction l as [|y l IH]; simpl.
  - now rewrite Hrow.
  - destruct (other y); [reflexivity | exact IH].
Qed.

Lemma replace_hits_twice (l : list A) :
  replace_hits A hit row (replace_hits A hit row l) = replace_hits A hit row l.
Proof.
  unfold replace_hits. rewrite map_map. apply map_ext. intros r.
  destruct (hit r) eqn:E; [now rewrite hit_row | now rewrite E].
Qed.

Lemma replace_hits_snoc (l : list A) :
  (forall y, In y l -> hit y = false) ->
  replace_hits A hit row (l ++ [row]) = l ++ [row].
Proof.
  intros Hno. unfold replace_hits. rewrite map_app. simpl. rewrite hit_row.
  f_equal. rewrite <- (map_id l) at 2. apply map_ext_in.
  intros r Hr. now rewrite (Hno r Hr).
Qed.

End Upsert.

Lemma merge_revoked_rows db row :
  revoked_tokens (merge_revoked db row)
  = match db_get_revoked db (RevokedToken.sig row) with
    | Some _ =>
        replace_hits _ (fun r => String.eqb (RevokedToken.sig r)
                                            (RevokedToken.sig row))
                     row (revoked_tokens db)
    | None => revoked_tokens db ++ [row]
    end.
Proof.
  unfold merge_revoked. now destruct (db_get_revoked db (RevokedToken.sig row)).
Qed.

(** X12: revoking is an upsert keyed by the signature.  After [revoke_jwt]
    the ledger answers the token's signature with the row just written;
    tokens with another signature are revoked or not as before; no second
    row with a signature appears in a ledger that had none; and revoking the
    same token again with the same expiry changes nothing. *)
Theorem revoke_is_keyed_upsert (db : Session) (jwt : Jwt) (exp : Z) :
  db_get_revoked (revoke_jwt db jwt exp) (rsplit_sig jwt)
    = Some (RevokedToken.mk (rsplit_sig jwt) exp)
  /\ (forall other,
        rsplit_sig other <> rsplit_sig jwt ->
        is_jwt_revoked (revoke_jwt db jwt exp) other = is_jwt_revoked db other)
  /\ (NoDup (map RevokedToken.sig (revoked_tokens db)) ->
      NoDup (map RevokedToken.sig (revoked_tokens (revoke_jwt db jwt exp))))
  /\ revoked_tokens (revoke_jwt (revoke_jwt db jwt exp) jwt exp)
     = revoked_tokens (revoke_jwt db jwt exp).
Proof.
  pose (row := RevokedToken.mk (rsplit_sig jwt) exp).
  pose (hit := fun r : RevokedToken.t =>
                 String.eqb (RevokedToken.sig r) (RevokedToken.sig row)).
  assert (Hhit : hit row = true) by apply String.eqb_refl.
  assert (Hrows : revoked_tokens (revoke_jwt db jwt exp)
                  = match find hit (revoked_tokens db) with
                    | Some _ => replace_hits _ hit row (revoked_tokens db)
                    | None => revoked_tokens db ++ [row]
                    end)
    by apply (merge_revoked_rows db row).
  assert (Hget : find hit (revoked_tokens (revoke_jwt db jwt exp)) = Some row).
  { rewrite Hrows. destruct (find hit (revoked_tokens db)) as [old|] eqn:E.
    - now apply (find_replace_hits _ hit row Hhit _ old).
    - apply find_app_last; [|exact Hhit]. now apply find_some_iff. }
  split; [exact Hget|]. split; [|split].
  - intros other Hsig. unfold is_jwt_revoked, db_get_revoked.
    pose (miss := fun r : RevokedToken.t =>
                    String.eqb (RevokedToken.sig r) (rsplit_sig other)).
    change (match find miss (revoked_tokens (revoke_jwt db jwt exp)) with
            | Some _ => true | None => false end
            = match find miss (revoked_tokens db) with
              | Some _ => true | None => false end).
    assert (Hmiss : forall y, hit y = true -> miss y = false).
    { intros y Hy. apply String.eqb_eq in Hy. apply String.eqb_neq.
      rewrite Hy. simpl. congruence. }
    rewrite Hrows. destruct (find hit (revoked_tokens db)) as [old|].
    + now rewrite (find_other_replace_hits _ hit row Hhit miss).
    + apply find_other_snoc. now apply Hmiss.
  - intros Hnd. rewrite Hrows.
    destruct (find hit (revoked_tokens db)) as [old|] eqn:E.
    + replace (map RevokedToken.sig (replace_hits _ hit row (revoked_tokens db)))
        with (map RevokedToken.sig (revoked_tokens db)); [assumption|].
      unfold replace_hits. rewrite map_map. apply map_ext. intros r.
      destruct (hit r) eqn:Er; [|reflexivity].
      apply String.eqb_eq in Er. now rewrite Er.
    + rewrite map_app. simpl. apply NoDup_snoc; [assumption|].
      intros Hin. apply in_map_iff in Hin. destruct Hin as [r [Hr Hin]].
      rewrite find_some_iff in E. specialize (E r Hin).
      unfold hit in E. simpl in E. rewrite Hr, String.eqb_refl in E.
      discriminate.
  - assert (Hagain : revoked_tokens (revoke_jwt (revoke_jwt db jwt exp) jwt exp)
                     = match find hit (revoked_tokens (revoke_jwt db jwt exp)) with
                       | Some _ =>
                           replace_hits _ hit row
                             (revoked_tokens (revoke_jwt db jwt exp))
                       | None => revoked_tokens (revoke_jwt db jwt exp) ++ [row]
                       end)
      by apply (merge_revoked_rows (revoke_jwt db jwt exp) row).
    rewrite Hagain, Hget, Hrows.
    destruct (find hit (revoked_tokens db)) as [old|] eqn:E.
    + now apply replace_hits_twice.
    + apply replace_hits_snoc; [exact Hhit|]. now apply find_some_iff.
Qed.

(** ** Tokens, login and roles *)

Section AuthMore.

Variable hs256 : Claims -> string.
Variable hashpw : string -> string -> string.
Variable checkpw : string -> string -> bool.
Variable email_valid : string -> bool.

(** X13: a token decodes for as long as it lives.  The token made at [now]
    for a subject decodes to that subject, [iat = now] and
    [exp = now + lifetime] at every time from [now] until just before [exp];
    it is refused at any time before [now] (its [iat] is then in the future)
    and from [exp] on.  The lifetime is [expires_delta], or 30 minutes when
    that is absent or zero. *)
Theorem token_round_trip (sub : string) (expires_delta : option Z) (now later : Z) :
  let lifetime :=
    match expires_delta with
    | Some d => if d =? 0 then ACCESS_TOKEN_EXPIRE_MINUTES * 60 else d
    | None => ACCESS_TOKEN_EXPIRE_MINUTES * 60
    end in
  (now <= later < now + lifetime ->
   decoded_token hs256 later (create_access_token hs256 sub expires_delta now)
   = Ok (mkClaims (Some sub) (Some now) (now + lifetime)))
  /\ (later < now ->
      decoded_token hs256 later (create_access_token hs256 sub expires_delta now)
      = Raise error_invalid_credentials)
  /\ (now + lifetime <= later ->
      decoded_token hs256 later (create_access_token hs256 sub expires_delta now)
      = Raise error_invalid_credentials).
Proof.
  intros lifetime.
  assert (Htok : create_access_token hs256 sub expires_delta now
                 = encode hs256 (mkClaims (Some sub) (Some now) (now + lifetime))).
  { unfold create_access_token, lifetime.
    destruct expires_delta as [d|]; [destruct (d =? 0)|]; reflexivity. }
  rewrite Htok. unfold decoded_token, encode.
  cbn [jwt_signature jwt_payload claim_exp claim_iat].
  rewrite String.eqb_refl. cbn [andb].
  split; [|split]; intros H.
  - replace (later <? now + lifetime) with true
      by (symmetry; apply Z.ltb_lt; lia).
    now replace (now <=? later) with true by (symmetry; apply Z.leb_le; lia).
  - replace (now <=? later) with false by (symmetry; apply Z.leb_gt; lia).
    now rewrite andb_false_r.
  - now replace (later <? now + lifetime) with false
      by (symmetry; apply Z.ltb_ge; lia).
Qed.

(** X14: how a login ends.  It is refused with 401 "Incorrect email or
    password" exactly when the e-mail is not valid, or no user has it, or the
    password does not verify against the stored hash: the three cases give
    the same answer.  Otherwise it returns a bearer token for the stored
    e-mail, issued now, to expire 30 minutes later. *)
Theorem login_outcomes (form : OAuth2PasswordRequestForm) (db : Session) (now : Z) :
  (login hs256 checkpw email_valid form db now
   = Raise (HTTPException HTTP_401_UNAUTHORIZED "Incorrect email or password")
   <-> email_valid (username form) = false
       \/ (forall u, In u (users db) -> User.email u <> username form)
       \/ (exists u, first_user_by_email db (username form) = Some u
             /\ checkpw (password form) (User.hashed_password u) = false))
  /\ (forall tok,
       login hs256 checkpw email_valid form db now = Ok tok
       <-> email_valid (username form) = true
           /\ (exists u, first_user_by_email db (username form) = Some u
                 /\ checkpw (password form) (User.hashed_password u) = true)
           /\ tok = mkToken
                      (encode hs256
                         (mkClaims (Some (username form)) (Some now)
                                   (now + ACCESS_TOKEN_EXPIRE_MINUTES * 60)))
                      "bearer" (ACCESS_TOKEN_EXPIRE_MINUTES * 60)).
Proof.
  unfold login, authenticate_user.
  destruct (email_valid (username form)) eqn:Hvalid; simpl.
  2:{ split; [tauto|]. intros tok. split; [discriminate|]. intros [H _]. discriminate. }
  destruct (first_user_by_email db (username form)) as [u|] eqn:Hfind.
  - assert (Hemail : User.email u = username form).
    { unfold first_user_by_email in Hfind. apply find_some in Hfind.
      now apply String.eqb_eq. }
    destruct (checkpw (password form) (User.hashed_password u)) eqn:Hpw; simpl.
    + split.
      * split; [discriminate|]. intros [H|[H|[u' [Hu Hf]]]]; [discriminate| |].
        -- unfold first_user_by_email in Hfind. apply find_some in Hfind.
           exfalso. now apply (H u).
        -- injection Hu as <-. congruence.
      * intros tok. unfold token_response, create_access_token. rewrite Hemail.
        split.
        -- intros H. injection H as <-. repeat split; eauto.
        -- intros (_ & _ & ->). reflexivity.
    + split.
      * split; [|reflexivity]. intros _. right. right. now exists u.
      * intros tok. split; [discriminate|].
        intros (_ & [u' [Hu Hok]] & _). injection Hu as <-. congruence.
  - split.
    + split; [|reflexivity]. intros _. right. left.
      intros u Hin Heq. unfold first_user_by_email in Hfind.
      rewrite find_some_iff in Hfind. specialize (Hfind u Hin). simpl in Hfind.
      rewrite Heq, String.eqb_refl in Hfind. discriminate.
    + intros tok. split; [discriminate|].
      intros (_ & [u' [Hu _]] & _). discriminate.
Qed.

(** X15: the role gates.  When identity resolution fails, each role
    dependency fails with that same error, so an unauthenticated caller never
    gets the 403 of a wrong role.  When it returns a user, a role dependency
    returns a row of its table whose [user_id] is that user's id, and
    answers 403 only when the table has no such row. *)
Theorem role_gates (db : Session) (token : Jwt) (now : Z) :
  (forall e,
      get_current_user hs256 db token now = Raise e ->
      get_current_student hs256 db token now = Raise e
      /\ get_current_staff hs256 db token now = Raise e
      /\ get_current_security_operative hs256 db token now = Raise e)
  /\ (forall user,
      get_current_user hs256 db token now = Ok user ->
      match get_current_student hs256 db token now with
      | Ok p => In p (students db) /\ Student.user_id p = User.id user
      | Raise e =>
          e = HTTPException HTTP_403_FORBIDDEN PROFILE_UNAUTHORIZED
          /\ forall p, In p (students db) -> Student.user_id p <> User.id user
      end
      /\ match get_current_staff hs256 db token now with
         | Ok p => In p (staffs db) /\ Staff.user_id p = User.id user
         | Raise e =>
             e = HTTPException HTTP_403_FORBIDDEN PROFILE_UNAUTHORIZED
             /\ forall p, In p (staffs db) -> Staff.user_id p <> User.id user
         end
      /\ match get_current_security_operative hs256 db token now with
         | Ok p =>
             In p (security_operatives db)
             /\ SecurityOperative.user_id p = User.id user
         | Raise e =>
             e = HTTPException HTTP_403_FORBIDDEN PROFILE_UNAUTHORIZED
             /\ forall p, In p (security_operatives db) ->
                          SecurityOperative.user_id p <> User.id user
         end).
Proof.
  unfold get_current_student, get_current_staff, get_current_security_operative.
  split.
  - intros e H. rewrite H. simpl. auto.
  - intros user H. rewrite H. simpl. repeat split.
    + destruct (find _ (students db)) as [p|] eqn:E.
      * apply find_some in E. split; [tauto | lia].
      * split; [reflexivity|]. intros p Hp.
        rewrite find_some_iff in E. specialize (E p Hp). simpl in E. lia.
    + destruct (find _ (staffs db)) as [p|] eqn:E.
      * apply find_some in E. split; [tauto | lia].
      * split; [reflexivity|]. intros p Hp.
        rewrite find_some_iff in E. specialize (E p Hp). simpl in E. lia.
    + destruct (find _ (security_operatives db)) as [p|] eqn:E.
      * apply find_some in E. split; [tauto | lia].
      * split; [reflexivity|]. intros p Hp.
        rewrite find_some_iff in E. specialize (E p Hp). simpl in E. lia.
Qed.

End AuthMore.

(** ** More on signup *)

Lemma filter_fresh_snoc {A : Type} (key : A -> Z) (l : list A) (x : A) :
  ~ In (key x) (map key l) ->
  filter (fun u => negb (key u =? key x)) (l ++ [x]) = l.
Proof.
  intros Hfresh. rewrite filter_app. simpl. rewrite Z.eqb_refl. simpl.
  rewrite app_nil_r. induction l as [|y l IH]; simpl; [reflexivity|].
  destruct (key y =? key x) eqn:E; simpl.
  - apply Z.eqb_eq in E. exfalso. apply Hfresh. simpl. now left.
  - f_equal. apply IH. intros H. apply Hfresh. simpl. now right.
Qed.

Section SignupMore.

Variable hs256 : Claims -> string.
Variable hashpw : string -> string -> string.

Lemma signup_ok_inv d db salt joined_at issued_at db' resp :
  signup hs256 hashpw d db salt joined_at issued_at = (db', Ok resp) ->
  (forall u, In u (users db) -> User.email u <> uc_email d)
  /\ users db' = users db ++ [created_user hashpw db d salt joined_at]
  /\ revoked_tokens db' = revoked_tokens db
  /\ exeat_requests db' = exeat_requests db
  /\ access_token (signup_token resp)
     = create_access_token hs256 (uc_email d) None issued_at.
Proof.
  unfold signup.
  destruct (existsb _ (users db)) eqn:Hex; [discriminate|].
  intros H.
  assert (Hfresh : forall u, In u (users db) -> User.email u <> uc_email d).
  { intros u Hin. apply String.eqb_neq.
    now apply (proj1 (existsb_false_iff _ _) Hex). }
  split; [exact Hfresh|].
  destruct (uc_user_type d) eqn:Htype; [discriminate| | |].
  - destruct (uc_guardian_name d), (uc_guardian_phone_number d);
      try discriminate.
    destruct (uc_matriculation_number d), (uc_course_of_study d),
      (uc_guardian_relationship d); try discriminate.
    injection H as <- <-. unfold created_user. rewrite Htype. simpl. auto.
  - destruct (uc_staff_id d), (uc_designation d); try discriminate.
    injection H as <- <-. unfold created_user. rewrite Htype. simpl. auto.
  - destruct (uc_security_id d), (uc_designation d); try discriminate.
    injection H as <- <-. unfold created_user. rewrite Htype. simpl. auto.
Qed.

Lemma created_user_found d db salt joined_at db' :
  (forall u, In u (users db) -> User.email u <> uc_email d) ->
  users db' = users db ++ [created_user hashpw db d salt joined_at] ->
  first_user_by_email db' (uc_email d)
  = Some (created_user hashpw db d salt joined_at).
Proof.
  intros Hfresh Husers. unfold first_user_by_email. rewrite Husers.
  apply find_app_last.
  - intros u Hin. apply String.eqb_neq. now apply Hfresh.
  - apply String.eqb_refl.
Qed.

(** X16: a token older than the account does not open it.  After a
    successful signup, a token whose subject is the new e-mail and whose
    [iat] is earlier than the moment the user row was inserted is refused
    with the unauthenticated error at every time, however it is signed. *)
Theorem token_older_than_account_refused
  (d : UserCreate) (db : Session) (salt : string) (joined_at issued_at : Z)
  (db' : Session) (resp : SignupResponse) (token : Jwt) (iat later : Z) :
  signup hs256 hashpw d db salt joined_at issued_at = (db', Ok resp) ->
  claim_sub (jwt_payload token) = Some (uc_email d) ->
  claim_iat (jwt_payload token) = Some iat ->
  iat < joined_at ->
  get_current_user hs256 db' token later = Raise error_invalid_credentials.
Proof.
  intros Hsignup Hsub Hiat Hold.
  apply signup_ok_inv in Hsignup.
  destruct Hsignup as (Hfresh & Husers & _).
  pose proof (created_user_found d db salt joined_at db' Hfresh Husers) as Hfind.
  unfold get_current_user, decoded_token.
  destruct (_ && _); simpl; [|reflexivity].
  destruct (is_jwt_revoked db' token); [reflexivity|].
  rewrite Hiat, Hsub. simpl. rewrite Hfind. simpl.
  now replace (joined_at >? iat) with true by (symmetry; apply Z.gtb_lt; lia).
Qed.

(** X17: when the token that signup hands out is usable.  Read at or after
    the time it was issued, while unexpired and not in the ledger, the token
    in the signup response resolves to the user row just inserted when the
    token was issued at or after the insert, and is refused when the store's
    clock at the insert was ahead of the clock that stamped the token. *)
Theorem signup_token_resolution
  (d : UserCreate) (db : Session) (salt : string) (joined_at issued_at : Z)
  (db' : Session) (resp : SignupResponse) (later : Z) :
  signup hs256 hashpw d db salt joined_at issued_at = (db', Ok resp) ->
  issued_at <= later < issued_at + ACCESS_TOKEN_EXPIRE_MINUTES * 60 ->
  is_jwt_revoked db (access_token (signup_token resp)) = false ->
  (joined_at <= issued_at ->
   get_current_user hs256 db' (access_token (signup_token resp)) later
   = Ok (created_user hashpw db d salt joined_at))
  /\ (issued_at < joined_at ->
      get_current_user hs256 db' (access_token (signup_token resp)) later
      = Raise error_invalid_credentials).
Proof.
  intros Hsignup Hlive Hledger.
  apply signup_ok_inv in Hsignup.
  destruct Hsignup as (Hfresh & Husers & Hrevoked & _ & Htok).
  pose proof (created_user_found d db salt joined_at db' Hfresh Husers) as Hfind.
  rewrite Htok in *.
  assert (Hnot : is_jwt_revoked db'
                   (create_access_token hs256 (uc_email d) None issued_at) = false).
  { unfold is_jwt_revoked, db_get_revoked in *. now rewrite Hrevoked. }
  rewrite (fresh_token_resolution hs256 db' _ issued_at later Hlive Hnot), Hfind.
  cbn [created_user User.time_joined].
  split; intros H.
  - now replace (joined_at >? issued_at) with false by (symmetry; lia).
  - now replace (joined_at >? issued_at) with true by (symmetry; lia).
Qed.

(** X18: what a failed signup leaves behind.  A payload whose e-mail a
    stored user already has is refused at the first commit and the store is
    unchanged.  With a fresh e-mail, a failure after the user row has been
    committed leaves that row behind with no profile: the integrity error of
    the profile insert, and, for a student whose guardian cannot be
    inserted, the [PendingRollbackError] of the compensating commit.  Only
    the branch for a user type without profile answers 400, and it has
    removed the user row; the request schema admits no such type. *)
Theorem signup_failure_traces
  (d : UserCreate) (db : Session) (salt : string) (joined_at issued_at : Z) :
  ((exists u, In u (users db) /\ User.email u = uc_email d) ->
   signup hs256 hashpw d db salt joined_at issued_at = (db, Raise IntegrityError))
  /\ ((forall u, In u (users db) -> User.email u <> uc_email d) ->
      forall db' e,
        signup hs256 hashpw d db salt joined_at issued_at = (db', Raise e) ->
        students db' = students db /\ staffs db' = staffs db
        /\ security_operatives db' = security_operatives db
        /\ match e with
           | HTTPException status_code _ =>
               status_code = HTTP_400_BAD_REQUEST
               /\ uc_user_type d = ADMIN
               /\ users db' = users db /\ guardians db' = guardians db
           | PendingRollbackError =>
               uc_user_type d = STUDENT
               /\ (uc_guardian_name d = None
                   \/ uc_guardian_phone_number d = None)
               /\ users db' = users db ++ [created_user hashpw db d salt joined_at]
               /\ guardians db' = guardians db
           | _ =>
               e = IntegrityError
               /\ uc_user_type d <> ADMIN
               /\ users db' = users db ++ [created_user hashpw db d salt joined_at]
           end).
Proof.
  split.
  - intros [u [Hin Heq]]. unfold signup.
    replace (existsb _ (users db)) with true; [reflexivity|].
    symmetry. apply existsb_exists. exists u. split; [assumption|].
    now apply String.eqb_eq.
  - intros Hfresh db' e. unfold signup.
    replace (existsb (fun u => String.eqb (User.email u) (uc_email d)) (users db))
      with false.
    2:{ symmetry. apply existsb_false_iff. intros u Hin.
        apply String.eqb_neq. now apply Hfresh. }
    assert (Hdel : forall u : User.t,
               User.id u = next_id (map User.id (users db)) ->
               filter (fun x => negb (User.id x
                                      =? next_id (map User.id (users db))))
                      (users db ++ [u])
               = users db).
    { intros u Hid. rewrite <- Hid. apply (filter_fresh_snoc User.id).
      rewrite Hid. apply next_id_fresh. }
    destruct (uc_user_type d) eqn:Htype.
    + intros H. injection H as <- <-. simpl.
      repeat split; auto.
    + destruct (uc_guardian_name d) eqn:Hgn,
               (uc_guardian_phone_number d) eqn:Hgp;
        try (intros H; injection H as <- <-; simpl; repeat split; auto;
             unfold created_user; now rewrite Htype).
      destruct (uc_matriculation_number d), (uc_course_of_study d),
        (uc_guardian_relationship d);
        try discriminate;
        intros H; injection H as <- <-; simpl; repeat split; auto;
        try discriminate; unfold created_user; now rewrite Htype.
    + destruct (uc_staff_id d), (uc_designation d); try discriminate;
        intros H; injection H as <- <-; simpl; repeat split; auto;
        try discriminate; unfold created_user; now rewrite Htype.
    + destruct (uc_security_id d), (uc_designation d); try discriminate;
        intros H; injection H as <- <-; simpl; repeat split; auto;
        try discriminate; unfold created_user; now rewrite Htype.
Qed.

End SignupMore.

Lemma token_older_than_account_refused_witness :
  get_current_user sample_hs256
    (fst (signup sample_hs256 sample_hashpw ada_signup empty_db "salt" 100 100))
    (create_access_token sample_hs256 "ada@example.edu" None 50) 60
  = Raise error_invalid_credentials.
Proof.
  eapply (token_older_than_account_refused sample_hs256 sample_hashpw
            ada_signup empty_db "salt" 100 100 _ _ _ 50 60).
  - reflexivity.
  - reflexivity.
  - reflexivity.
  - lia.
Defined.

Lemma signup_token_resolution_witness :
  get_current_user sample_hs256
    (fst (signup sample_hs256 sample_hashpw ada_signup empty_db "salt" 100 101))
    (create_access_token sample_hs256 "ada@example.edu" None 101) 700
  = Ok ada.
Proof.
  destruct (signup_token_resolution sample_hs256 sample_hashpw
              ada_signup empty_db "salt" 100 101 _ _ 700 eq_refl
              ltac:(unfold ACCESS_TOKEN_EXPIRE_MINUTES; lia) eq_refl)
    as [Hok _].
  apply Hok. lia.
Defined.

(** ** Profiles and accounts *)

(** X19: signup links the profile of the chosen type to the new user.  After
    a successful signup, provided no stored profile row already carried the
    new user's id, the profile lookup for the new user finds a profile of the
    payload's user type, tied to that user and holding the payload's
    matriculation number, staff id or security id. *)
Theorem signup_links_profile
  (hs256 : Claims -> string) (hashpw : string -> string -> string)
  (d : UserCreate) (db : Session) (salt : string) (joined_at issued_at : Z)
  (db' : Session) (resp : SignupResponse) :
  signup hs256 hashpw d db salt joined_at issued_at = (db', Ok resp) ->
  (forall p, In p (students db) ->
             Student.user_id p <> next_id (map User.id (users db))) ->
  (forall p, In p (staffs db) ->
             Staff.user_id p <> next_id (map User.id (users db))) ->
  (forall p, In p (security_operatives db) ->
             SecurityOperative.user_id p <> next_id (map User.id (users db))) ->
  match get_user_profile db' (created_user hashpw db d salt joined_at) with
  | Ok (user_type, StudentProfile p) =>
      user_type = STUDENT /\ uc_user_type d = STUDENT
      /\ Student.user_id p = next_id (map User.id (users db))
      /\ uc_matriculation_number d = Some (Student.matriculation_number p)
      /\ exists g, In g (guardians db') /\ Guardian.id g = Student.guardian_id p
                   /\ uc_guardian_name d = Some (Guardian.name g)
  | Ok (user_type, StaffProfile p) =>
      user_type = STAFF /\ uc_user_type d = STAFF
      /\ Staff.user_id p = next_id (map User.id (users db))
      /\ uc_staff_id d = Some (Staff.staff_id p)
  | Ok (user_type, SecurityOperativeProfile p) =>
      user_type = SECURITY_OPERATIVE /\ uc_user_type d = SECURITY_OPERATIVE
      /\ SecurityOperative.user_id p = next_id (map User.id (users db))
      /\ uc_security_id d = Some (SecurityOperative.security_id p)
  | Raise _ => False
  end.
Proof.
  intros Hsignup Hstudents Hstaffs Hsecurity.
  assert (Hs : forall l : list Student.t,
             l = students db ->
             forall p, In p l ->
               (Student.user_id p =? next_id (map User.id (users db))) = false)
    by (intros l -> p Hp; apply Z.eqb_neq; now apply Hstudents).
  assert (Hf : forall l : list Staff.t,
             l = staffs db ->
             forall p, In p l ->
               (Staff.user_id p =? next_id (map User.id (users db))) = false)
    by (intros l -> p Hp; apply Z.eqb_neq; now apply Hstaffs).
  assert (Hg : forall l : list SecurityOperative.t,
             l = security_operatives db ->
             forall p, In p l ->
               (SecurityOperative.user_id p =? next_id (map User.id (users db)))
               = false)
    by (intros l -> p Hp; apply Z.eqb_neq; now apply Hsecurity).
  unfold signup in Hsignup.
  destruct (existsb _ (users db)); [discriminate|].
  unfold get_user_profile, created_user. cbn [User.id].
  destruct (uc_user_type d) eqn:Htype; [discriminate| | |].
  - destruct (uc_guardian_name d) as [g_name|],
      (uc_guardian_phone_number d) as [g_phone|]; try discriminate.
    destruct (uc_matriculation_number d) as [matric|],
      (uc_course_of_study d) as [course|],
      (uc_guardian_relationship d) as [relationship|]; try discriminate.
    injection Hsignup as <- _. cbn [students set_students].
    rewrite find_app_last; [|now apply Hs | apply Z.eqb_refl].
    repeat split.
    eexists. split; [cbn; apply in_or_app; right; now left|]. now split.
  - destruct (uc_staff_id d) as [staff_id|],
      (uc_designation d) as [designation|]; try discriminate.
    injection Hsignup as <- _. cbn [students staffs set_staffs set_users].
    rewrite (proj2 (find_some_iff _ _) (Hs _ eq_refl)).
    rewrite find_app_last; [|now apply Hf | apply Z.eqb_refl].
    repeat split.
  - destruct (uc_security_id d) as [security_id|],
      (uc_designation d) as [designation|]; try discriminate.
    injection Hsignup as <- _.
    cbn [students staffs security_operatives set_security_operatives set_users].
    rewrite (proj2 (find_some_iff _ _) (Hs _ eq_refl)).
    rewrite (proj2 (find_some_iff _ _) (Hf _ eq_refl)).
    rewrite find_app_last; [|now apply Hg | apply Z.eqb_refl].
    repeat split.
Qed.

Lemma signup_links_profile_witness :
  uc_user_type ada_signup = STAFF /\ uc_staff_id ada_signup = Some "ST-003".
Proof.
  pose proof (signup_links_profile sample_hs256 sample_hashpw ada_signup
                empty_db "salt" 100 100 _ _ eq_refl
                (fun p (H : In p []) => match H with end)
                (fun p (H : In p []) => match H with end)
                (fun p (H : In p []) => match H with end)) as H.
  cbv in H. destruct H as (_ & Htype & _ & Hid). split; assumption.
Defined.

(** X20: the profile lookup tries student, then staff, then security.  It
    answers 404 exactly when no profile table has a row for the user; a
    student row is found whatever the other tables hold, a staff row when
    there is no student row, and a security row when there is neither. *)
Theorem profile_lookup_order (db : Session) (user : User.t) :
  (get_user_profile db user
   = Raise (HTTPException HTTP_404_NOT_FOUND "User profile not found")
   <-> (forall p, In p (students db) -> Student.user_id p <> User.id user)
       /\ (forall p, In p (staffs db) -> Staff.user_id p <> User.id user)
       /\ (forall p, In p (security_operatives db) ->
                     SecurityOperative.user_id p <> User.id user))
  /\ (forall q, In q (students db) -> Student.user_id q = User.id user ->
      exists p, get_user_profile db user = Ok (STUDENT, StudentProfile p)
                /\ In p (students db) /\ Student.user_id p = User.id user)
  /\ ((forall p, In p (students db) -> Student.user_id p <> User.id user) ->
      forall q, In q (staffs db) -> Staff.user_id q = User.id user ->
      exists p, get_user_profile db user = Ok (STAFF, StaffProfile p)
                /\ In p (staffs db) /\ Staff.user_id p = User.id user)
  /\ ((forall p, In p (students db) -> Student.user_id p <> User.id user) ->
      (forall p, In p (staffs db) -> Staff.user_id p <> User.id user) ->
      forall q, In q (security_operatives db) ->
                SecurityOperative.user_id q = User.id user ->
      exists p, get_user_profile db user
                = Ok (SECURITY_OPERATIVE, SecurityOperativeProfile p)
                /\ In p (security_operatives db)
                /\ SecurityOperative.user_id p = User.id user).
Proof.
  unfold get_user_profile.
  destruct (find _ (students db)) as [s|] eqn:Es.
  { apply find_some in Es. destruct Es as [Hin Hid]. apply Z.eqb_eq in Hid.
    split; [split | split; [|split]].
    - discriminate.
    - intros (H & _ & _). exfalso. now apply (H s).
    - intros q _ _. exists s. auto.
    - intros H. exfalso. now apply (H s).
    - intros H. exfalso. now apply (H s). }
  rewrite find_some_iff in Es.
  assert (Hs : forall p, In p (students db) -> Student.user_id p <> User.id user)
    by (intros p Hp; apply Z.eqb_neq; now apply Es).
  destruct (find _ (staffs db)) as [f|] eqn:Ef.
  { apply find_some in Ef. destruct Ef as [Hin Hid]. apply Z.eqb_eq in Hid.
    split; [split | split; [|split]].
    - discriminate.
    - intros (_ & H & _). exfalso. now apply (H f).
    - intros q Hq Hqid. exfalso. now apply (Hs q).
    - intros _ q _ _. exists f. auto.
    - intros _ H. exfalso. now apply (H f). }
  rewrite find_some_iff in Ef.
  assert (Hf : forall p, In p (staffs db) -> Staff.user_id p <> User.id user)
    by (intros p Hp; apply Z.eqb_neq; now apply Ef).
  destruct (find _ (security_operatives db)) as [g|] eqn:Eg.
  { apply find_some in Eg. destruct Eg as [Hin Hid]. apply Z.eqb_eq in Hid.
    split; [split | split; [|split]].
    - discriminate.
    - intros (_ & _ & H). exfalso. now apply (H g).
    - intros q Hq Hqid. exfalso. now apply (Hs q).
    - intros _ q Hq Hqid. exfalso. now apply (Hf q).
    - intros _ _ q _ _. exists g. auto. }
  rewrite find_some_iff in Eg.
  split; [split | split; [|split]].
  - intros _. split; [exact Hs|]. split; [exact Hf|].
    intros p Hp. apply Z.eqb_neq. now apply Eg.
  - reflexivity.
  - intros q Hq Hqid. exfalso. now apply (Hs q).
  - intros _ q Hq Hqid. exfalso. now apply (Hf q).
  - intros _ _ q Hq Hqid. exfalso.
    specialize (Eg q Hq). simpl in Eg. lia.
Qed.

Lemma NoDup_map_eq {A B : Type} (f : A -> B) (l : list A) (a b : A) :
  NoDup (map f l) -> In a l -> In b l -> f a = f b -> a = b.
Proof.
  induction l as [|x l IH]; simpl; intros Hnd Ha Hb Heq; [contradiction|].
  inversion Hnd as [|? ? Hnotin Hnd']; subst.
  destruct Ha as [<-|Ha], Hb as [<-|Hb]; auto.
  - exfalso. apply Hnotin. rewrite Heq. now apply in_map.
  - exfalso. apply Hnotin. rewrite <- Heq. now apply in_map.
Qed.

Lemma get_current_user_ok_inv hs256 db token now u :
  get_current_user hs256 db token now = Ok u ->
  exists email,
    claim_sub (jwt_payload token) = Some email
    /\ first_user_by_email db email = Some u.
Proof.
  unfold get_current_user, decoded_token.
  destruct (_ && _); simpl; [|discriminate].
  destruct (is_jwt_revoked db token); [discriminate|].
  destruct (claim_iat (jwt_payload token)); simpl; [|discriminate].
  destruct (claim_sub (jwt_payload token)) as [email|]; [|discriminate].
  destruct (first_user_by_email db email) as [user|] eqn:E; [|discriminate].
  destruct (User.time_joined user >? z); [discriminate|].
  intros H. injection H as <-. now exists email.
Qed.

Lemma no_user_no_session hs256 checkpw email_valid db email :
  first_user_by_email db email = None ->
  (forall token later u,
      claim_sub (jwt_payload token) = Some email ->
      get_current_user hs256 db token later <> Ok u)
  /\ (forall pw now,
      login hs256 checkpw email_valid (mkForm email pw) db now
      = Raise (HTTPException HTTP_401_UNAUTHORIZED "Incorrect email or password")).
Proof.
  intros Hnone. split.
  - intros token later u Hsub H. apply get_current_user_ok_inv in H.
    destruct H as [e [He Hfind]]. congruence.
  - intros pw now. unfold login, authenticate_user. simpl.
    rewrite Hnone. now destruct (email_valid email).
Qed.

(** X21: deleting an account locks it out and deletes nothing else.  With
    e-mails unique among the stored users, after [delete_account] no token
    whose subject is the deleted user's e-mail resolves to a user and no
    password logs that e-mail in; the other users stay; and the profile
    rows, guardians and requests of the deleted user are all still stored. *)
Theorem deleted_account_is_locked_out
  (hs256 : Claims -> string) (checkpw : string -> string -> bool)
  (email_valid : string -> bool) (db : Session) (user : User.t) :
  NoDup (map User.email (users db)) ->
  In user (users db) ->
  (forall token later u,
      claim_sub (jwt_payload token) = Some (User.email user) ->
      get_current_user hs256 (delete_account db user) token later <> Ok u)
  /\ (forall pw now,
      login hs256 checkpw email_valid (mkForm (User.email user) pw)
            (delete_account db user) now
      = Raise (HTTPException HTTP_401_UNAUTHORIZED "Incorrect email or password"))
  /\ (forall u, In u (users (delete_account db user))
                <-> In u (users db) /\ User.id u <> User.id user)
  /\ students (delete_account db user) = students db
  /\ staffs (delete_account db user) = staffs db
  /\ security_operatives (delete_account db user) = security_operatives db
  /\ guardians (delete_account db user) = guardians db
  /\ exeat_requests (delete_account db user) = exeat_requests db.
Proof.
  intros Hnd Hin.
  assert (Hrows : forall u, In u (users (delete_account db user))
                            <-> In u (users db) /\ User.id u <> User.id user).
  { intros u. unfold delete_account, delete_user. simpl.
    rewrite filter_In, negb_true_iff, Z.eqb_neq. tauto. }
  assert (Hnone : first_user_by_email (delete_account db user) (User.email user)
                  = None).
  { unfold first_user_by_email. apply find_some_iff. intros u Hu.
    apply Hrows in Hu. destruct Hu as [Hu Hid].
    apply String.eqb_neq. intros Heq. apply Hid.
    now rewrite (NoDup_map_eq User.email (users db) u user Hnd Hu Hin Heq). }
  destruct (no_user_no_session hs256 checkpw email_valid _ _ Hnone) as [Htok Hlog].
  split; [exact Htok|]. split; [exact Hlog|]. split; [exact Hrows|].
  repeat split.
Qed.

Lemma deleted_account_is_locked_out_witness :
  login sample_hs256 sample_checkpw sample_email_valid
        (mkForm "ada@example.edu" "s3cret") (delete_account db_ada ada) 130
  = Raise (HTTPException HTTP_401_UNAUTHORIZED "Incorrect email or password").
Proof.
  destruct (deleted_account_is_locked_out sample_hs256 sample_checkpw
              sample_email_valid db_ada ada) as (_ & Hlogin & _).
  - repeat constructor. simpl. tauto.
  - simpl. auto.
  - apply (Hlogin "s3cret" 130).
Defined.

Lemma find_replaced_row (l : list User.t) (user row : User.t) :
  In user l ->
  User.id row = User.id user ->
  (forall y, In y l -> User.id y <> User.id user ->
             User.email y <> User.email row) ->
  find (fun u => String.eqb (User.email u) (User.email row))
       (map (fun u => if User.id u =? User.id row then row else u) l)
  = Some row.
Proof.
  intros Hin Hid Hother.
  induction l as [|y l IH]; simpl; [contradiction|].
  destruct (User.id y =? User.id row) eqn:E.
  - now rewrite String.eqb_refl.
  - apply Z.eqb_neq in E.
    assert (Hy : User.email y <> User.email row)
      by (apply Hother; [now left | congruence]).
    apply String.eqb_neq in Hy. rewrite Hy.
    apply IH.
    + destruct Hin as [<-|Hin]; [congruence | assumption].
    + intros z Hz. apply Hother. now right.
Qed.

(** X22: changing the e-mail moves the login.  With keys and e-mails unique
    among the stored users, after [update_account_info] has stored a new
    e-mail for a user, no token whose subject is the old e-mail resolves to
    a user any more, while the new e-mail finds the same account (same id,
    password hash and join time), and a login with the new e-mail and a
    password that verified before succeeds. *)
Theorem email_change_moves_the_login
  (hs256 : Claims -> string) (checkpw : string -> string -> bool)
  (email_valid : string -> bool)
  (updates : UpdateUserInfo) (db : Session) (user : User.t)
  (db' : Session) (resp : UserResponse) (new_email : string) :
  NoDup (map User.id (users db)) ->
  NoDup (map User.email (users db)) ->
  In user (users db) ->
  upd_email updates = Some (Some new_email) ->
  new_email <> User.email user ->
  update_account_info updates db user = Ok (db', resp) ->
  (forall token later u,
      claim_sub (jwt_payload token) = Some (User.email user) ->
      get_current_user hs256 db' token later <> Ok u)
  /\ (exists row,
        first_user_by_email db' new_email = Some row
        /\ User.id row = User.id user
        /\ User.hashed_password row = User.hashed_password user
        /\ User.time_joined row = User.time_joined user
        /\ ur_email resp = new_email)
  /\ (forall pw now,
        email_valid new_email = true ->
        checkpw pw (User.hashed_password user) = true ->
        exists tok,
          login hs256 checkpw email_valid (mkForm new_email pw) db' now = Ok tok).
Proof.
  intros Hids Hemails Hin Hset Hnew Hupd.
  unfold update_account_info in Hupd. rewrite Hset in Hupd.
  rewrite !andb_false_r in Hupd. simpl in Hupd.
  destruct (assigned (upd_first_name updates) (User.first_name user))
    as [first_name|]; [|discriminate].
  destruct (assigned (upd_last_name updates) (User.last_name user))
    as [last_name|]; [|discriminate].
  destruct (existsb _ (users db)) eqn:Hex; [discriminate|].
  injection Hupd as <- <-.
  set (row := User.mk (User.id user) first_name last_name new_email
                (User.phone_number user) (User.hashed_password user)
                (User.is_active user) (User.is_verified user)
                (User.user_type_id user) (User.profile_picture_id user)
                (User.time_joined user)).
  assert (Hothers : forall y, In y (users db) -> User.id y <> User.id user ->
                              User.email y <> new_email).
  { intros y Hy Hid. pose proof (proj1 (existsb_false_iff _ _) Hex y Hy) as H.
    simpl in H. apply Z.eqb_neq in Hid. rewrite Hid in H. simpl in H.
    now apply String.eqb_neq. }
  assert (Hfind : first_user_by_email (merge_user db row) new_email = Some row).
  { unfold first_user_by_email, merge_user. simpl.
    apply (find_replaced_row (users db) user row Hin eq_refl Hothers). }
  assert (Hold : first_user_by_email (merge_user db row) (User.email user) = None).
  { unfold first_user_by_email, merge_user. simpl.
    apply find_some_iff. intros u Hu. apply in_map_iff in Hu.
    destruct Hu as [y [Hy Hyin]]. apply String.eqb_neq.
    change (User.id row) with (User.id user) in Hy.
    destruct (User.id y =? User.id user) eqn:E; subst u.
    - exact Hnew.
    - intros Heq. apply Z.eqb_neq in E. apply E.
      now rewrite (NoDup_map_eq User.email (users db) y user Hemails Hyin Hin Heq). }
  split; [|split].
  - apply (no_user_no_session hs256 checkpw email_valid _ _ Hold).
  - exists row. repeat split. exact Hfind.
  - intros pw now Hvalid Hpw. unfold login, authenticate_user. simpl.
    rewrite Hvalid, Hfind. simpl. rewrite Hpw. simpl. eauto.
Qed.

Lemma email_change_moves_the_login_witness :
  exists tok,
    login sample_hs256 sample_checkpw sample_email_valid
          (mkForm "ada@campus.edu" "s3cret")
          (merge_user db_ada
             (User.mk 1 "Ada" "Obi" "ada@campus.edu" "0800" "salt$s3cret"
                      true false STAFF None 100))
          130
    = Ok tok.
Proof.
  destruct (email_change_moves_the_login sample_hs256 sample_checkpw
              sample_email_valid
              (mkUpdateUserInfo None None (Some (Some "ada@campus.edu")))
              db_ada ada
              (merge_user db_ada
                 (User.mk 1 "Ada" "Obi" "ada@campus.edu" "0800" "salt$s3cret"
                          true false STAFF None 100))
              (user_response
                 (User.mk 1 "Ada" "Obi" "ada@campus.edu" "0800" "salt$s3cret"
                          true false STAFF None 100))
              "ada@campus.edu") as (_ & _ & Hlogin).
  - repeat constructor. simpl. tauto.
  - repeat constructor. simpl. tauto.
  - simpl. auto.
  - reflexivity.
  - discriminate.
  - reflexivity.
  - apply (Hlogin "s3cret" 130); reflexivity.
Defined.

(** ** The user table *)

Lemma NoDup_map_filter {A B : Type} (f : A -> B) (g : A -> bool) (l : list A) :
  NoDup (map f l) -> NoDup (map f (filter g l)).
Proof.
  induction l as [|x l IH]; simpl; intros Hnd; [constructor|].
  inversion Hnd as [|? ? Hnotin Hnd']; subst.
  destruct (g x); simpl; [|now apply IH].
  constructor; [|now apply IH].
  intros Hin. apply Hnotin. apply in_map_iff in Hin.
  destruct Hin as [y [Hy Hyin]]. apply filter_In in Hyin.
  rewrite <- Hy. apply in_map. tauto.
Qed.

Lemma signup_users hs256 hashpw d db salt joined_at issued_at :
  users (fst (signup hs256 hashpw d db salt joined_at issued_at)) = users db
  \/ ((forall u, In u (users db) -> User.email u <> uc_email d)
      /\ users (fst (signup hs256 hashpw d db salt joined_at issued_at))
         = users db ++ [created_user hashpw db d salt joined_at]).
Proof.
  unfold signup.
  destruct (existsb _ (users db)) eqn:Hex; [now left|].
  assert (Hfresh : forall u, In u (users db) -> User.email u <> uc_email d).
  { intros u Hin. apply String.eqb_neq.
    now apply (proj1 (existsb_false_iff _ _) Hex). }
  assert (Hdel : forall u : User.t,
             User.id u = next_id (map User.id (users db)) ->
             filter (fun x => negb (User.id x
                                    =? next_id (map User.id (users db))))
                    (users db ++ [u])
             = users db).
  { intros u Hid. rewrite <- Hid. apply (filter_fresh_snoc User.id).
    rewrite Hid. apply next_id_fresh. }
  destruct (uc_user_type d) eqn:Htype.
  - left. simpl. now apply Hdel.
  - destruct (uc_guardian_name d), (uc_guardian_phone_number d);
      try (right; (split; [exact Hfresh|]); simpl;
           unfold created_user; now rewrite Htype).
    destruct (uc_matriculation_number d), (uc_course_of_study d),
      (uc_guardian_relationship d);
      right; (split; [exact Hfresh|]); simpl;
      unfold created_user; now rewrite Htype.
  - destruct (uc_staff_id d), (uc_designation d);
      right; (split; [exact Hfresh|]); simpl;
      unfold created_user; now rewrite Htype.
  - destruct (uc_security_id d), (uc_designation d);
      right; (split; [exact Hfresh|]); simpl;
      unfold created_user; now rewrite Htype.
Qed.

Lemma replaced_emails_unique (l : list User.t) (user row : User.t) :
  User.id row = User.id user ->
  NoDup (map User.id l) ->
  NoDup (map User.email l) ->
  (forall y, In y l -> User.id y <> User.id user ->
             User.email y <> User.email row) ->
  NoDup (map User.email
           (map (fun u => if User.id u =? User.id row then row else u) l)).
Proof.
  intros Hid. rewrite Hid.
  induction l as [|y l IH]; simpl; intros Hids Hemails Hother; [constructor|].
  inversion Hids as [|? ? Hidnotin Hids']; subst.
  inversion Hemails as [|? ? Hemailnotin Hemails']; subst.
  constructor.
  - intros Hin. apply in_map_iff in Hin. destruct Hin as [u [Hu Huin]].
    apply in_map_iff in Huin. destruct Huin as [z [Hz Hzin]].
    destruct (User.id y =? User.id user) eqn:Ey.
    + apply Z.eqb_eq in Ey.
      destruct (User.id z =? User.id user) eqn:Ez.
      * apply Z.eqb_eq in Ez. apply Hidnotin. rewrite Ey, <- Ez.
        now apply in_map.
      * apply Z.eqb_neq in Ez. subst u.
        apply (Hother z (or_intror Hzin) Ez). exact Hu.
    + apply Z.eqb_neq in Ey.
      destruct (User.id z =? User.id user) eqn:Ez.
      * subst u. apply (Hother y (or_introl eq_refl) Ey). now symmetry.
      * subst u. apply Hemailnotin. rewrite <- Hu. now apply in_map.
  - apply IH; auto; intros z Hz; apply Hother; now right.
Qed.

(** X23: the user table keeps keys and e-mails unique.  This holds of the
    empty store and is preserved by [signup] however it ends (success, 400
    with the new row removed, or an error that leaves the new row), by every
    successful [update_account_info], and by [delete_account]. *)
Theorem users_table_invariant :
  users_ok empty_db
  /\ forall db : Session,
       users_ok db ->
       (forall hs256 hashpw d salt joined_at issued_at,
           users_ok (fst (signup hs256 hashpw d db salt joined_at issued_at)))
       /\ (forall updates user db' resp,
           update_account_info updates db user = Ok (db', resp) ->
           users_ok db')
       /\ (forall user, users_ok (delete_account db user)).
Proof.
  split; [split; constructor|].
  intros db [Hids Hemails]. split; [|split].
  - intros hs256 hashpw d salt joined_at issued_at.
    destruct (signup_users hs256 hashpw d db salt joined_at issued_at)
      as [Heq|[Hfresh Heq]]; unfold users_ok; rewrite Heq.
    + now split.
    + rewrite !map_app. simpl. split; apply NoDup_snoc; auto.
      * apply next_id_fresh.
      * intros Hin. apply in_map_iff in Hin. destruct Hin as [u [Hu Hin]].
        now apply (Hfresh u).
  - intros updates user db' resp Hupd. unfold update_account_info in Hupd.
    destruct (_ && _) in Hupd.
    { injection Hupd as <- _. now split. }
    destruct (assigned (upd_first_name updates) _) as [first_name|];
      [|discriminate].
    destruct (assigned (upd_last_name updates) _) as [last_name|];
      [|discriminate].
    destruct (assigned (upd_email updates) _) as [email|]; [|discriminate].
    destruct (existsb _ (users db)) eqn:Hex; [discriminate|].
    injection Hupd as <- _. unfold users_ok, merge_user. simpl. split.
    + rewrite map_map.
      replace (map _ (users db)) with (map User.id (users db)); [assumption|].
      apply map_ext. intros u.
      destruct (User.id u =? User.id user) eqn:E; [|reflexivity].
      apply Z.eqb_eq in E. now rewrite E.
    + match goal with
      | |- NoDup (map User.email (map (fun u => if _ then ?r else u) _)) =>
          apply (replaced_emails_unique (users db) user r);
            [reflexivity | assumption | assumption |]
      end.
      simpl. intros y Hy Hid.
      pose proof (proj1 (existsb_false_iff _ _) Hex y Hy) as H.
      simpl in H. apply Z.eqb_neq in Hid. rewrite Hid in H. simpl in H.
      now apply String.eqb_neq.
  - intros user. unfold users_ok, delete_account, delete_user. simpl.
    split; now apply NoDup_map_filter.
Qed.

(** ** Names of the enumerations and the response model *)

Lemma upper_char_twice (c : ascii) : upper_char (upper_char c) = upper_char c.
Proof. destruct c as [[] [] [] [] [] [] [] []]; reflexivity. Qed.

Lemma str_upper_twice (s : string) : str_upper (str_upper s) = str_upper s.
Proof.
  induction s as [|c s IH]; simpl; [reflexivity|].
  now rewrite upper_char_twice, IH.
Qed.

Lemma str_upper_ascii (s : string) :
  is_ascii_text s = true -> is_ascii_text (str_upper s) = true.
Proof.
  induction s as [|c s IH]; simpl; [reflexivity|].
  rewrite !andb_true_iff. intros [Hc Hs]. split; [|now apply IH].
  revert Hc. destruct c as [[] [] [] [] [] [] [] []]; cbv; congruence.
Qed.

(** X24: the names of the enumerations round-trip.  [from_safe_name] of the
    [safe_name] of a status or of a user type gives that value back.  On
    names of ASCII characters the lookup ignores the case of its argument
    (the upper-cased name is again ASCII and is answered alike), and a name
    it accepts is, once upper-cased, the member's name; the mixed-case name
    "Pending" is accepted and the empty name is not. *)
Theorem enum_names_round_trip :
  (forall s, is_ascii_text (status_safe_name s) = true
             /\ status_from_safe_name (status_safe_name s) = Some s)
  /\ (forall t, is_ascii_text (user_type_safe_name t) = true
                /\ user_type_from_safe_name (user_type_safe_name t) = Some t)
  /\ (forall name,
        is_ascii_text name = true ->
        is_ascii_text (str_upper name) = true
        /\ status_from_safe_name (str_upper name) = status_from_safe_name name
        /\ user_type_from_safe_name (str_upper name)
           = user_type_from_safe_name name)
  /\ (forall name s,
        is_ascii_text name = true ->
        status_from_safe_name name = Some s -> str_upper name = status_name s)
  /\ (forall name t,
        is_ascii_text name = true ->
        user_type_from_safe_name name = Some t ->
        str_upper name = user_type_name t)
  /\ status_from_safe_name "Pending" = Some PENDING
  /\ status_from_safe_name "" = None
  /\ user_type_from_safe_name "" = None.
Proof.
  split; [intros []; split; reflexivity|].
  split; [intros []; split; reflexivity|].
  split.
  { intros name Hascii. split; [now apply str_upper_ascii|].
    unfold status_from_safe_name, user_type_from_safe_name.
    now rewrite str_upper_twice. }
  split.
  { intros name s _ H. unfold status_from_safe_name in H.
    apply find_some in H. destruct H as [_ H].
    apply String.eqb_eq in H. now symmetry. }
  split.
  { intros name t _ H. unfold user_type_from_safe_name in H.
    apply find_some in H. destruct H as [_ H].
    apply String.eqb_eq in H. now symmetry. }
  repeat split.
Qed.

(** X25: what a request looks like in a response.  The response carries the
    row's id, leave window, filing time, reason and staff comment, and the
    lower-case name of its status, from which [from_safe_name] recovers the
    status.  Its [staff_date] is never filled in: also for a request that
    has just been approved or denied the response shows the new status and
    the comment, but no review time. *)
Theorem response_of_a_request (r : ExeatRequest.t) :
  status_from_safe_name (resp_status (validate_status r))
    = Some (ExeatRequest.status_id r)
  /\ resp_id (validate_status r) = ExeatRequest.id r
  /\ resp_leave_start (validate_status r) = ExeatRequest.leave_start r
  /\ resp_leave_end (validate_status r) = ExeatRequest.leave_end r
  /\ resp_submission_time (validate_status r) = ExeatRequest.submission_time r
  /\ resp_reason (validate_status r) = ExeatRequest.reason r
  /\ resp_staff_comment (validate_status r) = ExeatRequest.staff_comment r
  /\ resp_staff_date (validate_status r) = None
  /\ (forall db staff exeat_id comment now db' r',
        approve_exeat_request db staff exeat_id comment now = Ok (db', r') ->
        ExeatRequest.staff_review_time r' = Some now
        /\ validate_status r'
           = mkExeatRequestResponse exeat_id (ExeatRequest.leave_start r')
               (ExeatRequest.leave_end r') (ExeatRequest.submission_time r')
               (ExeatRequest.reason r') "approved" comment None)
  /\ (forall db staff exeat_id comment now db' r',
        deny_exeat_request db staff exeat_id comment now = Ok (db', r') ->
        ExeatRequest.staff_review_time r' = Some now
        /\ validate_status r'
           = mkExeatRequestResponse exeat_id (ExeatRequest.leave_start r')
               (ExeatRequest.leave_end r') (ExeatRequest.submission_time r')
               (ExeatRequest.reason r') "denied" comment None).
Proof.
  split.
  { unfold validate_status. simpl. now destruct (ExeatRequest.status_id r). }
  do 7 (split; [reflexivity|]). split.
  - intros db staff exeat_id comment now db' r' H.
    apply approve_ok_shape in H. destruct H as (r0 & Hget & _ & -> & _).
    destruct (db_get_exeat_id _ _ _ Hget) as [_ <-]. now split.
  - intros db staff exeat_id comment now db' r' H.
    apply deny_ok_shape in H. destruct H as (r0 & Hget & _ & -> & _).
    destruct (db_get_exeat_id _ _ _ Hget) as [_ <-]. now split.
Qed.

(** ** db/crud.py *)

Lemma find_app_miss {A : Type} (f : A -> bool) (l : list A) (x : A) :
  f x = false -> find f (l ++ [x]) = find f l.
Proof.
  intros Hx. induction l as [|y l IH]; simpl.
  - now rewrite Hx.
  - destruct (f y); [reflexivity | exact IH].
Qed.

Lemma get_exeat_request_missing db k :
  (forall r, In r (exeat_requests db) -> ExeatRequest.id r <> k) ->
  get_exeat_request db k = Raise (ExeatRequestNotFound k).
Proof.
  intros H. unfold get_exeat_request, db_get_exeat.
  replace (find _ (exeat_requests db)) with (@None ExeatRequest.t); [reflexivity|].
  symmetry. apply find_some_iff. intros r Hr. apply Z.eqb_neq. now apply H.
Qed.

(** X26: create, read, delete.  A created request gets a key no stored
    request has and is read back by that key as it was given, while every
    other key reads as before.  Deleting a stored key makes that key read as
    not found and leaves every other key as it was.  Deleting or updating a
    key that no request has raises [ExeatRequestNotFound]. *)
Theorem request_crud_round_trips (db : Session) :
  (forall row,
      get_exeat_request (fst (create_exeat_request db row))
                        (ExeatRequest.id (snd (create_exeat_request db row)))
      = Ok (snd (create_exeat_request db row))
      /\ snd (create_exeat_request db row)
         = with_id (ExeatRequest.id (snd (create_exeat_request db row))) row
      /\ ~ In (ExeatRequest.id (snd (create_exeat_request db row)))
              (map ExeatRequest.id (exeat_requests db))
      /\ forall k,
           k <> ExeatRequest.id (snd (create_exeat_request db row)) ->
           get_exeat_request (fst (create_exeat_request db row)) k
           = get_exeat_request db k)
  /\ (forall k r,
      get_exeat_request db k = Ok r ->
      exists db',
        delete_exeat_request db k = Ok db'
        /\ get_exeat_request db' k = Raise (ExeatRequestNotFound k)
        /\ forall j, j <> k -> get_exeat_request db' j = get_exeat_request db j)
  /\ (forall k,
      (forall r, In r (exeat_requests db) -> ExeatRequest.id r <> k) ->
      delete_exeat_request db k = Raise (ExeatRequestNotFound k)
      /\ forall updates,
           update_exeat_request db k updates = Raise (ExeatRequestNotFound k)).
Proof.
  split; [|split].
  - intros row. unfold create_exeat_request, add_exeat. simpl.
    set (k := next_id (map ExeatRequest.id (exeat_requests db))).
    assert (Hfresh : forall y, In y (exeat_requests db) ->
                               (ExeatRequest.id y =? k) = false).
    { intros y Hy. apply Z.eqb_neq. intros Heq.
      apply (next_id_fresh (map ExeatRequest.id (exeat_requests db))).
      fold k. rewrite <- Heq. now apply in_map. }
    split; [|split; [reflexivity|split]].
    + unfold get_exeat_request, db_get_exeat. simpl.
      rewrite find_app_last; [reflexivity | exact Hfresh | apply Z.eqb_refl].
    + apply next_id_fresh.
    + intros j Hj. unfold get_exeat_request, db_get_exeat. simpl.
      rewrite find_app_miss; [reflexivity|]. simpl. apply Z.eqb_neq.
      fold k. congruence.
  - intros k r Hget. unfold delete_exeat_request. rewrite Hget. simpl.
    eexists. split; [reflexivity|].
    unfold get_exeat_request in Hget.
    destruct (db_get_exeat db k) as [r0|] eqn:E; [|discriminate].
    injection Hget as ->. destruct (db_get_exeat_id _ _ _ E) as [_ Hid].
    split.
    + apply get_exeat_request_missing. simpl. intros x Hx.
      apply filter_In in Hx. destruct Hx as [_ Hx].
      apply negb_true_iff, Z.eqb_neq in Hx. congruence.
    + intros j Hj. unfold get_exeat_request, db_get_exeat. simpl.
      rewrite find_filter_keep; [reflexivity|].
      intros x _ Hx. apply Z.eqb_eq in Hx.
      apply negb_true_iff, Z.eqb_neq. congruence.
  - intros k Hk. pose proof (get_exeat_request_missing db k Hk) as Hget.
    unfold delete_exeat_request, update_exeat_request. rewrite Hget.
    split; [reflexivity|]. intros updates. reflexivity.
Qed.


